(** * Polly API client: [submitVote] and [fetchPollResults]

    A shallow embedding of the three TypeScript sources

      - [src/lib/poll-api.ts]      (module [PollApi])
      - [src/submitVote.ts]        (module [SubmitVoteFile])
      - [src/fetchPollResults.ts]  (module [FetchPollResultsFile])

    together with the part of the ECMAScript runtime they call:
    strings, Numbers, [parseInt], [JSON.stringify], [String], [new Error],
    property access, truthiness, and [fetch].

    Conventions of the embedding.

    - A JavaScript string is the list of its UTF-16 code units.
    - A Number is an IEEE-754 binary64 value; arithmetic on it is written
      out over [Z] (rounding to nearest, ties to even).
    - An [async] function is a computation over the host state (the world
      behind the network and the log of requests handed to [fetch]) that
      completes normally with a value or abruptly with a thrown value.
      A [fetch] that never settles is outside the model: every call of the
      network function returns. *)

From Stdlib Require Import ZArith NArith List Bool String Ascii Lia.
From Stdlib Require Import DecimalN DecimalPos.
Import ListNotations.

Set Warnings "-register-all".

Local Open Scope Z_scope.

(** ** Strings *)

Definition CodeUnit := N.
Definition JSString := list CodeUnit.

(** [str] turns an ASCII literal of the source into code units. *)
Definition str (s : string) : JSString :=
  List.map N_of_ascii (list_ascii_of_string s).

Definition unit_eqb (a b : CodeUnit) : bool := N.eqb a b.

Arguments unit_eqb (a b)%_N_scope.

Fixpoint string_eqb (a b : JSString) : bool :=
  match a, b with
  | [], [] => true
  | x :: a', y :: b' => unit_eqb x y && string_eqb a' b'
  | _, _ => false
  end.

(** Decimal digits of a natural number, most significant first
    (["0"] for zero). *)
Fixpoint units_of_uint (d : Decimal.uint) : JSString :=
  match d with
  | Decimal.Nil => []
  | Decimal.D0 d => 48%N :: units_of_uint d
  | Decimal.D1 d => 49%N :: units_of_uint d
  | Decimal.D2 d => 50%N :: units_of_uint d
  | Decimal.D3 d => 51%N :: units_of_uint d
  | Decimal.D4 d => 52%N :: units_of_uint d
  | Decimal.D5 d => 53%N :: units_of_uint d
  | Decimal.D6 d => 54%N :: units_of_uint d
  | Decimal.D7 d => 55%N :: units_of_uint d
  | Decimal.D8 d => 56%N :: units_of_uint d
  | Decimal.D9 d => 57%N :: units_of_uint d
  end.

Definition digits (z : Z) : JSString := units_of_uint (N.to_uint (Z.to_N z)).

Definition zeros (n : Z) : JSString := repeat 48%N (Z.to_nat n).

(** ** Numbers *)

(** A binary64 value.  [Int z] is the integer-valued double of value [z]
    ([Int 0] is [+0]); [Frac s m e] is the non-integer [(-1)^s * m / 2^e]
    with [m] odd. *)
Inductive Number : Type :=
| NaN
| Infinity (negative : bool)
| NegZero
| Int (z : Z)
| Frac (negative : bool) (m e : positive).

(** *** Rounding a real to binary64

    Positive rationals are pairs [(p, q)] standing for [p / q]. *)

(** [p / q / 2^e] *)
Definition scale2 (p q e : Z) : Z * Z :=
  if 0 <=? e then (p, q * 2 ^ e) else (p * 2 ^ (- e), q).

(** [p / q * 10^e] *)
Definition scale10 (p q e : Z) : Z * Z :=
  if 0 <=? e then (p * 10 ^ e, q) else (p, q * 10 ^ (- e)).

(** The binary64 nearest to [p / q] (ties to even), as [(m, e)] for
    [m * 2^e]; [None] when the result overflows to infinity. *)
Definition binary64_round (p q : Z) : option (Z * Z) :=
  (* e1 is the exponent of the leading bit, e that of the last kept bit
     (never below that of the subnormals) *)
  let e0 := Z.log2 p - Z.log2 q in
  let '(a0, b0) := scale2 p q e0 in
  let e1 := if a0 <? b0 then e0 - 1 else e0 in
  let e := Z.max (e1 - 52) (-1074) in
  let '(a, b) := scale2 p q e in
  let m := a / b in
  let r := a mod b in
  let m' := if (b <? 2 * r) || ((b =? 2 * r) && Z.odd m) then m + 1 else m in
  if 1024 <=? Z.log2 m' + e then None else Some (m', e).

(** [m * 2^e = p / q] *)
Definition dyadic_eqb (me : Z * Z) (p q : Z) : bool :=
  let '(m, e) := me in
  if 0 <=? e then m * 2 ^ e * q =? p else m * q =? p * 2 ^ (- e).

(** The Number value of a mathematical integer. *)
Definition NumberOfInteger (z : Z) : Number :=
  if z =? 0 then Int 0
  else
    match binary64_round (Z.abs z) 1 with
    | None => Infinity (z <? 0)
    | Some (m, e) =>
        Int (Z.sgn z * (if 0 <=? e then m * 2 ^ e else m / 2 ^ (- e)))
    end.

(** *** Number::toString (radix 10) *)

(** A candidate [(n, k, s)] stands for the decimal [s * 10^(n-k)] with
    [k] significant digits. *)
Definition Candidate := (Z * Z * Z)%type.

Definition candidate_value (c : Candidate) : Z * Z :=
  let '(n, k, s) := c in scale10 s 1 (n - k).

Definition candidate_ok (p q : Z) (c : Candidate) : bool :=
  let '(n, k, s) := c in
  (10 ^ (k - 1) <=? s) && (s <? 10 ^ k) &&
  let '(a, b) := candidate_value c in
  match binary64_round a b with
  | Some me => dyadic_eqb me p q
  | None => false
  end.

(** The [D] with [10^(D-1) <= p/q < 10^D], searched upwards from an
    estimate below it. *)
Fixpoint decimal_exponent_from (fuel : nat) (p q D : Z) : Z :=
  match fuel with
  | O => D
  | S fuel' =>
      let '(a, b) := scale10 p q (- D) in
      if a <? b then D else decimal_exponent_from fuel' p q (D + 1)
  end.

Definition decimal_exponent (p q : Z) : Z :=
  decimal_exponent_from 8 p q ((Z.log2 p - Z.log2 q - 1) * 30102 / 100000 - 1).

Definition candidates (p q k : Z) : list Candidate :=
  let D := decimal_exponent p q in
  flat_map
    (fun n =>
       let '(a, b) := scale10 p q (k - n) in
       [(n, k, a / b); (n, k, a / b + 1)])
    [D; D + 1].

(** [| value c - p/q |] compared between two candidates. *)
Definition closer (p q : Z) (c1 c2 : Candidate) : bool :=
  let '(a1, b1) := candidate_value c1 in
  let '(a2, b2) := candidate_value c2 in
  let d1 := Z.abs (a1 * q - p * b1) * b2 in
  let d2 := Z.abs (a2 * q - p * b2) * b1 in
  (d1 <? d2) || ((d1 =? d2) && Z.even (snd c1)).

Fixpoint closest (p q : Z) (best : Candidate) (cs : list Candidate) : Candidate :=
  match cs with
  | [] => best
  | c :: cs' => closest p q (if closer p q best c then best else c) cs'
  end.

Definition best_candidate (p q k : Z) : option Candidate :=
  match filter (candidate_ok p q) (candidates p q k) with
  | [] => None
  | c :: cs => Some (closest p q c cs)
  end.

(** The least [k] (up to 17, which suffices for every binary64) with a
    [k]-digit decimal that rounds to [p / q]. *)
Fixpoint shortest_from (fuel : nat) (p q k : Z) : option Candidate :=
  match fuel with
  | O => None
  | S fuel' =>
      match best_candidate p q k with
      | Some c => Some c
      | None => shortest_from fuel' p q (k + 1)
      end
  end.

Definition shortest (p q : Z) : option Candidate := shortest_from 17 p q 1.

Definition format_decimal (c : Candidate) : JSString :=
  let '(n, k, s) := c in
  let ds := digits s in
  if (k <=? n) && (n <=? 21) then ds ++ zeros (n - k)
  else if (0 <? n) && (n <=? 21) then
    firstn (Z.to_nat n) ds ++ str "." ++ skipn (Z.to_nat n) ds
  else if (-6 <? n) && (n <=? 0) then
    str "0." ++ zeros (- n) ++ ds
  else
    let exponent :=
      str "e" ++ (if n - 1 <? 0 then str "-" else str "+") ++ digits (Z.abs (n - 1)) in
    if k =? 1 then ds ++ exponent
    else firstn 1 ds ++ str "." ++ skipn 1 ds ++ exponent.

(** The exact decimal expansion of [m / 2^e]. *)
Definition exact_fraction (m e : Z) : JSString :=
  let f := digits ((m mod 2 ^ e) * 5 ^ e) in
  digits (m / 2 ^ e) ++ str "." ++ zeros (e - Z.of_nat (List.length f)) ++ f.

Definition sign_prefix (negative : bool) : JSString :=
  if negative then str "-" else [].

(** Below [2^53] every integer is a binary64 and is its own shortest
    decimal. *)
Definition safe_integer (z : Z) : bool := Z.abs z <? 2 ^ 53.

(** Number::toString(x, 10).  A finite value prints as the shortest
    decimal that rounds back to it; the [None] branches are not reached
    for a binary64 and print the exact expansion. *)
Definition Number_toString (x : Number) : JSString :=
  match x with
  | NaN => str "NaN"
  | Infinity negative => sign_prefix negative ++ str "Infinity"
  | NegZero => str "0"
  | Int z =>
      if z =? 0 then str "0"
      else
        sign_prefix (z <? 0) ++
        (if safe_integer z then digits (Z.abs z)
         else
           match shortest (Z.abs z) 1 with
           | Some c => format_decimal c
           | None => digits (Z.abs z)
           end)
  | Frac negative m e =>
      sign_prefix negative ++
      match shortest (Z.pos m) (2 ^ Z.pos e) with
      | Some c => format_decimal c
      | None => exact_fraction (Z.pos m) (Z.pos e)
      end
  end.

Definition Number_isFinite (x : Number) : bool :=
  match x with
  | NaN | Infinity _ => false
  | _ => true
  end.

(** ** parseInt *)

(** WhiteSpace and LineTerminator code units (StrWhiteSpaceChar). *)
Definition isWhiteSpace (c : CodeUnit) : bool :=
  existsb (unit_eqb c)
    [0x9; 0xB; 0xC; 0x20; 0xA0; 0xFEFF; 0x1680; 0x202F; 0x205F; 0x3000;
     0xA; 0xD; 0x2028; 0x2029]%N
  || ((0x2000 <=? c) && (c <=? 0x200A))%N.

Fixpoint TrimStart (s : JSString) : JSString :=
  match s with
  | c :: s' => if isWhiteSpace c then TrimStart s' else s
  | [] => []
  end.

(** The value of a code unit as a digit ([0-9], [a-z], [A-Z]). *)
Definition digit_value (c : CodeUnit) : option Z :=
  if ((48 <=? c) && (c <=? 57))%N then Some (Z.of_N c - 48)
  else if ((97 <=? c) && (c <=? 122))%N then Some (Z.of_N c - 87)
  else if ((65 <=? c) && (c <=? 90))%N then Some (Z.of_N c - 55)
  else None.

Definition isRadixDigit (R : Z) (c : CodeUnit) : bool :=
  match digit_value c with
  | Some d => d <? R
  | None => false
  end.

(** The longest prefix of radix-[R] digits. *)
Fixpoint digit_prefix (R : Z) (s : JSString) : JSString :=
  match s with
  | c :: s' => if isRadixDigit R c then c :: digit_prefix R s' else []
  | [] => []
  end.

Definition radix_value (R : Z) (ds : JSString) : Z :=
  fold_left
    (fun acc c => acc * R + match digit_value c with Some d => d | None => 0 end)
    ds 0.

Definition ToInt32 (z : Z) : Z := (z + 2 ^ 31) mod 2 ^ 32 - 2 ^ 31.

(** [parseInt(string, radix)]: leading white space is dropped, a sign is
    read, the longest run of digits of the radix is taken and the rest is
    ignored; an empty run gives [NaN].  The run is valued exactly and then
    rounded to a Number (an implementation may also replace the digits
    after the 20th by zeros before rounding). *)
Definition parseInt (string : JSString) (radix : Z) : Number :=
  let s := TrimStart string in
  let negative := match s with c :: _ => unit_eqb c 45 | [] => false end in
  let s :=
    match s with
    | c :: s' => if unit_eqb c 43 || unit_eqb c 45 then s' else s
    | [] => s
    end in
  let R := ToInt32 radix in
  if negb (R =? 0) && ((R <? 2) || (36 <? R)) then NaN
  else
    let stripPrefix := (R =? 0) || (R =? 16) in
    let R := if R =? 0 then 10 else R in
    let '(R, s) :=
      if stripPrefix then
        match s with
        | 48%N :: x :: s' =>
            if unit_eqb x 120 || unit_eqb x 88 then (16, s') else (R, s)
        | _ => (R, s)
        end
      else (R, s) in
    match digit_prefix R s with
    | [] => NaN
    | ds =>
        let mathInt := radix_value R ds in
        if mathInt =? 0 then (if negative then NegZero else Int 0)
        else NumberOfInteger (if negative then - mathInt else mathInt)
    end.

(** ** Values *)

(** The values the client handles: JSON data, [undefined], and instances
    of [Error] (with their [name] and [message]).  The properties of a
    [JObject] are its own properties, in property order, each key once. *)
Inductive JSValue : Type :=
| JUndefined
| JNull
| JBoolean (b : bool)
| JNumber (x : Number)
| JString (s : JSString)
| JArray (elements : list JSValue)
| JObject (properties : list (JSString * JSValue))
| JError (name message : JSString).

(** How an operation completes: normally with a value, or by throwing. *)
Inductive Completion (A : Type) : Type :=
| Normal (a : A)
| Throw (thrown : JSValue).

Arguments Normal {A} a.
Arguments Throw {A} thrown.

(** Induction on values, through arrays and objects. *)
Section JSValue_induction.

Variable Q : JSValue -> Prop.
Hypothesis Q_undefined : Q JUndefined.
Hypothesis Q_null : Q JNull.
Hypothesis Q_boolean : forall b, Q (JBoolean b).
Hypothesis Q_number : forall x, Q (JNumber x).
Hypothesis Q_string : forall s, Q (JString s).
Hypothesis Q_array : forall elements, Forall Q elements -> Q (JArray elements).
Hypothesis Q_object :
  forall properties, Forall (fun kv => Q (snd kv)) properties -> Q (JObject properties).
Hypothesis Q_error : forall name message, Q (JError name message).

Fixpoint JSValue_ind' (v : JSValue) : Q v :=
  match v with
  | JUndefined => Q_undefined
  | JNull => Q_null
  | JBoolean b => Q_boolean b
  | JNumber x => Q_number x
  | JString s => Q_string s
  | JArray elements =>
      Q_array elements
        ((fix all (l : list JSValue) : Forall Q l :=
            match l with
            | [] => Forall_nil Q
            | e :: l' => Forall_cons e (JSValue_ind' e) (all l')
            end) elements)
  | JObject properties =>
      Q_object properties
        ((fix all (l : list (JSString * JSValue)) : Forall (fun kv => Q (snd kv)) l :=
            match l with
            | [] => Forall_nil _
            | kv :: l' => Forall_cons kv (JSValue_ind' (snd kv)) (all l')
            end) properties)
  | JError name message => Q_error name message
  end.

End JSValue_induction.

Definition TypeError (message : JSString) : JSValue :=
  JError (str "TypeError") message.

Definition instanceof_Error (v : JSValue) : bool :=
  match v with
  | JError _ _ => true
  | _ => false
  end.

Definition ToBoolean (v : JSValue) : bool :=
  match v with
  | JUndefined | JNull => false
  | JBoolean b => b
  | JNumber NaN | JNumber NegZero => false
  | JNumber (Int z) => negb (z =? 0)
  | JNumber _ => true
  | JString [] => false
  | JString _ => true
  | JArray _ | JObject _ | JError _ _ => true
  end.

Fixpoint own_property (P : JSString) (properties : list (JSString * JSValue))
  : option JSValue :=
  match properties with
  | [] => None
  | (k, v) :: rest => if string_eqb k P then Some v else own_property P rest
  end.

(** [O.P] for a property name [P] that no built-in prototype defines and
    that is neither an index nor [length] (here: [detail], [option_id],
    [poll_id], [question], [results]).  Reading a property of [undefined]
    or [null] throws a [TypeError] (its message as V8 words it). *)
Definition Get (O : JSValue) (P : JSString) : Completion JSValue :=
  match O with
  | JUndefined =>
      Throw (TypeError (str "Cannot read properties of undefined (reading '" ++ P ++ str "')"))
  | JNull =>
      Throw (TypeError (str "Cannot read properties of null (reading '" ++ P ++ str "')"))
  | JObject properties =>
      match own_property P properties with
      | Some v => Normal v
      | None => Normal JUndefined
      end
  | _ => Normal JUndefined
  end.

Fixpoint join (separator : JSString) (parts : list JSString) : JSString :=
  match parts with
  | [] => []
  | [x] => x
  | x :: rest => x ++ separator ++ join separator rest
  end.

Fixpoint sequence {A : Type} (cs : list (Completion A)) : Completion (list A) :=
  match cs with
  | [] => Normal []
  | Normal a :: rest =>
      match sequence rest with
      | Normal l => Normal (a :: l)
      | Throw v => Throw v
      end
  | Throw v :: _ => Throw v
  end.

(** ToString.  An object is converted by its [toString] method: the
    inherited one gives ["[object Object]"]; an own [toString] property of
    a data object is not callable, and the conversion throws. *)
Fixpoint ToString (v : JSValue) : Completion JSString :=
  match v with
  | JUndefined => Normal (str "undefined")
  | JNull => Normal (str "null")
  | JBoolean b => Normal (if b then str "true" else str "false")
  | JNumber x => Normal (Number_toString x)
  | JString s => Normal s
  | JArray elements =>
      match
        sequence
          (List.map
             (fun e =>
                match e with
                | JUndefined | JNull => Normal []
                | _ => ToString e
                end)
             elements)
      with
      | Normal parts => Normal (join (str ",") parts)
      | Throw t => Throw t
      end
  | JObject properties =>
      match own_property (str "toString") properties with
      | Some _ => Throw (TypeError (str "Cannot convert object to primitive value"))
      | None => Normal (str "[object Object]")
      end
  | JError name message =>
      Normal
        (match name, message with
         | [], _ => message
         | _, [] => name
         | _, _ => name ++ str ": " ++ message
         end)
  end.

(** [String(value)] *)
Definition String_ (value : JSValue) : Completion JSString := ToString value.

(** [new Error(message)] *)
Definition new_Error (message : JSValue) : Completion JSValue :=
  match message with
  | JUndefined => Normal (JError (str "Error") [])
  | _ =>
      match ToString message with
      | Normal s => Normal (JError (str "Error") s)
      | Throw t => Throw t
      end
  end.

(** *** JSON.stringify *)

Definition hex_digit (d : N) : CodeUnit :=
  (if d <? 10 then 48 + d else 87 + d)%N.

(** [\uXXXX] *)
Definition UnicodeEscape (c : CodeUnit) : JSString :=
  [92; 117; hex_digit (c / 4096 mod 16); hex_digit (c / 256 mod 16);
   hex_digit (c / 16 mod 16); hex_digit (c mod 16)]%N.

Definition isLeadingSurrogate (c : CodeUnit) : bool :=
  ((0xD800 <=? c) && (c <=? 0xDBFF))%N.

Definition isTrailingSurrogate (c : CodeUnit) : bool :=
  ((0xDC00 <=? c) && (c <=? 0xDFFF))%N.

Fixpoint quote_units (s : JSString) : JSString :=
  match s with
  | [] => []
  | c :: s' =>
      if isLeadingSurrogate c then
        match s' with
        | t :: s'' =>
            if isTrailingSurrogate t then c :: t :: quote_units s''
            else UnicodeEscape c ++ quote_units s'
        | [] => UnicodeEscape c
        end
      else if isTrailingSurrogate c then UnicodeEscape c ++ quote_units s'
      else
        (if unit_eqb c 8 then [92; 98]
         else if unit_eqb c 9 then [92; 116]
         else if unit_eqb c 10 then [92; 110]
         else if unit_eqb c 12 then [92; 102]
         else if unit_eqb c 13 then [92; 114]
         else if unit_eqb c 34 then [92; 34]
         else if unit_eqb c 92 then [92; 92]
         else if (c <? 32)%N then UnicodeEscape c
         else [c])%N ++ quote_units s'
  end.

Definition QuoteJSONString (s : JSString) : JSString :=
  [34%N] ++ quote_units s ++ [34%N].

(** SerializeJSONProperty; [None] is [undefined].  Data carries no
    callable [toJSON], and an [Error] has no enumerable own property. *)
Fixpoint JSON_stringify (v : JSValue) : option JSString :=
  match v with
  | JUndefined => None
  | JNull => Some (str "null")
  | JBoolean b => Some (if b then str "true" else str "false")
  | JNumber x => Some (if Number_isFinite x then Number_toString x else str "null")
  | JString s => Some (QuoteJSONString s)
  | JArray elements =>
      Some
        (str "[" ++
         join (str ",")
           (List.map
              (fun e =>
                 match JSON_stringify e with
                 | Some s => s
                 | None => str "null"
                 end)
              elements) ++
         str "]")
  | JObject properties =>
      Some
        (str "{" ++
         join (str ",")
           (flat_map
              (fun kv =>
                 match JSON_stringify (snd kv) with
                 | Some s => [QuoteJSONString (fst kv) ++ str ":" ++ s]
                 | None => []
                 end)
              properties) ++
         str "}")
  | JError _ _ => Some (str "{}")
  end.

(** ** fetch *)

(** The [RequestInit] handed to [fetch], with the URL.  A [body] that is
    absent (or [undefined]) is [None]. *)
Record Request : Type := {
  url : JSString;
  method : JSString;
  headers : list (JSString * JSString);
  body : option JSString
}.

(** What the client reads of a [Response]; [json] is how [response.json()]
    settles. *)
Record Response : Type := {
  ok : bool;
  status : Z;
  statusText : JSString;
  json : Completion JSValue
}.

(** The network and whatever lies behind it: [network request w] is how
    [fetch] settles in world [w] (with a response, or by throwing) and the
    world afterwards. *)
Record Platform : Type := {
  World : Type;
  network : Request -> World -> Completion Response * World
}.

(** The host state of a run: the world, and the requests handed to
    [fetch] so far, oldest first. *)
Record Host (P : Platform) : Type := {
  world : World P;
  issued : list Request
}.

Arguments world {P} h.
Arguments issued {P} h.

Definition start {P : Platform} (w : World P) : Host P :=
  {| world := w; issued := [] |}.

(** ** Asynchronous computations *)

Definition Async (P : Platform) (A : Type) : Type :=
  Host P -> Completion A * Host P.

Definition ret {P : Platform} {A : Type} (a : A) : Async P A :=
  fun h => (Normal a, h).

Definition throw {P : Platform} {A : Type} (v : JSValue) : Async P A :=
  fun h => (Throw v, h).

Definition bind {P : Platform} {A B : Type} (m : Async P A) (f : A -> Async P B)
  : Async P B :=
  fun h =>
    match m h with
    | (Normal a, h') => f a h'
    | (Throw v, h') => (Throw v, h')
    end.

(** [try { m } catch (error) { handler error }] *)
Definition try_catch {P : Platform} {A : Type} (m : Async P A)
  (handler : JSValue -> Async P A) : Async P A :=
  fun h =>
    match m h with
    | (Normal a, h') => (Normal a, h')
    | (Throw v, h') => handler v h'
    end.

(** An operation of the runtime that touches no host state. *)
Definition lift {P : Platform} {A : Type} (c : Completion A) : Async P A :=
  fun h => (c, h).

(** [await fetch(url, init)] *)
Definition fetch {P : Platform} (request : Request) : Async P Response :=
  fun h =>
    let '(c, w) := network P request (world h) in
    (c, {| world := w; issued := issued h ++ [request] |}).

Declare Scope async_scope.
Delimit Scope async_scope with async.
Notation "x <- m ;; k" := (bind m (fun x => k))
  (at level 61, m at next level, right associativity) : async_scope.
Notation "'try' m 'catch' x => k" := (try_catch m (fun x => k))
  (at level 10, x name, m at level 200, k at level 200) : async_scope.

(** ** src/lib/poll-api.ts *)

Module PollApi.

Local Open Scope async_scope.

Definition submitVote {P : Platform} (pollId optionId token : JSString)
  : Async P JSValue :=
  let url := str "http://localhost:8000/polls/" ++ pollId ++ str "/vote" in
  let requestBody := JObject [(str "option_id", JNumber (parseInt optionId 10))] in
  try
    (response <-
       fetch {| url := url;
                method := str "POST";
                headers := [(str "Content-Type", str "application/json");
                            (str "Authorization", str "Bearer " ++ token)];
                body := JSON_stringify requestBody |} ;;
     if negb (ok response) then
       let errorMessage :=
         JString (str "HTTP " ++ Number_toString (Int (status response)) ++
                  str ": " ++ statusText response) in
       errorMessage <-
         (try
            (errorData <- lift (json response) ;;
             detail <- lift (Get errorData (str "detail")) ;;
             if ToBoolean detail then ret detail else ret errorMessage)
          catch _ => ret errorMessage) ;;
       error <- lift (new_Error errorMessage) ;;
       throw error
     else
       voteData <- lift (json response) ;;
       ret voteData)
  catch error =>
    if instanceof_Error error then throw error
    else
      description <- lift (String_ error) ;;
      wrapped <- lift (new_Error (JString (str "Network error: " ++ description))) ;;
      throw wrapped.

Definition fetchPollResults {P : Platform} (pollId : JSString) : Async P JSValue :=
  let url := str "http://localhost:8000/polls/" ++ pollId ++ str "/results" in
  try
    (response <-
       fetch {| url := url;
                method := str "GET";
                headers := [(str "Content-Type", str "application/json")];
                body := None |} ;;
     if negb (ok response) then
       let errorMessage :=
         JString (str "HTTP " ++ Number_toString (Int (status response)) ++
                  str ": " ++ statusText response) in
       errorMessage <-
         (try
            (errorData <- lift (json response) ;;
             detail <- lift (Get errorData (str "detail")) ;;
             if ToBoolean detail then ret detail else ret errorMessage)
          catch _ => ret errorMessage) ;;
       error <- lift (new_Error errorMessage) ;;
       throw error
     else
       pollResults <- lift (json response) ;;
       ret pollResults)
  catch error =>
    if instanceof_Error error then throw error
    else
      description <- lift (String_ error) ;;
      wrapped <- lift (new_Error (JString (str "Network error: " ++ description))) ;;
      throw wrapped.

End PollApi.

(** ** src/submitVote.ts *)

Module SubmitVoteFile.

Local Open Scope async_scope.

Definition submitVote {P : Platform} (pollId optionId token : JSString)
  : Async P JSValue :=
  let url := str "http://localhost:8000/polls/" ++ pollId ++ str "/vote" in
  let requestBody := JObject [(str "option_id", JNumber (parseInt optionId 10))] in
  try
    (response <-
       fetch {| url := url;
                method := str "POST";
                headers := [(str "Content-Type", str "application/json");
                            (str "Authorization", str "Bearer " ++ token)];
                body := JSON_stringify requestBody |} ;;
     if negb (ok response) then
       let errorMessage :=
         JString (str "HTTP " ++ Number_toString (Int (status response)) ++
                  str ": " ++ statusText response) in
       errorMessage <-
         (try
            (errorData <- lift (json response) ;;
             detail <- lift (Get errorData (str "detail")) ;;
             if ToBoolean detail then ret detail else ret errorMessage)
          catch _ => ret errorMessage) ;;
       error <- lift (new_Error errorMessage) ;;
       throw error
     else
       voteData <- lift (json response) ;;
       ret voteData)
  catch error =>
    if instanceof_Error error then throw error
    else
      description <- lift (String_ error) ;;
      wrapped <- lift (new_Error (JString (str "Network error: " ++ description))) ;;
      throw wrapped.

End SubmitVoteFile.

(** ** src/fetchPollResults.ts *)

Module FetchPollResultsFile.

Local Open Scope async_scope.

Definition fetchPollResults {P : Platform} (pollId : JSString) : Async P JSValue :=
  let url := str "http://localhost:8000/polls/" ++ pollId ++ str "/results" in
  try
    (response <-
       fetch {| url := url;
                method := str "GET";
                headers := [(str "Content-Type", str "application/json")];
                body := None |} ;;
     if negb (ok response) then
       let errorMessage :=
         JString (str "HTTP " ++ Number_toString (Int (status response)) ++
                  str ": " ++ statusText response) in
       errorMessage <-
         (try
            (errorData <- lift (json response) ;;
             detail <- lift (Get errorData (str "detail")) ;;
             if ToBoolean detail then ret detail else ret errorMessage)
          catch _ => ret errorMessage) ;;
       error <- lift (new_Error errorMessage) ;;
       throw error
     else
       pollResults <- lift (json response) ;;
       ret pollResults)
  catch error =>
    if instanceof_Error error then throw error
    else
      description <- lift (String_ error) ;;
      wrapped <- lift (new_Error (JString (str "Network error: " ++ description))) ;;
      throw wrapped.

End FetchPollResultsFile.

(** ** Vocabulary of the properties *)

(** The request [submitVote] builds for an option Number. *)
Definition vote_request (pollId : JSString) (option_id : Number) (token : JSString)
  : Request :=
  {| url := str "http://localhost:8000/polls/" ++ pollId ++ str "/vote";
     method := str "POST";
     headers := [(str "Content-Type", str "application/json");
                 (str "Authorization", str "Bearer " ++ token)];
     body := JSON_stringify (JObject [(str "option_id", JNumber option_id)]) |}.

(** The request [fetchPollResults] builds. *)
Definition results_request (pollId : JSString) : Request :=
  {| url := str "http://localhost:8000/polls/" ++ pollId ++ str "/results";
     method := str "GET";
     headers := [(str "Content-Type", str "application/json")];
     body := None |}.

(** The exported functions, each with the request it hands to [fetch]. *)
Definition vote_calls (P : Platform) (pollId optionId token : JSString)
  : list (Async P JSValue * Request) :=
  [(PollApi.submitVote pollId optionId token,
    vote_request pollId (parseInt optionId 10) token);
   (SubmitVoteFile.submitVote pollId optionId token,
    vote_request pollId (parseInt optionId 10) token)].

Definition results_calls (P : Platform) (pollId : JSString)
  : list (Async P JSValue * Request) :=
  [(PollApi.fetchPollResults pollId, results_request pollId);
   (FetchPollResultsFile.fetchPollResults pollId, results_request pollId)].

Definition client_calls (P : Platform) (pollId optionId token : JSString)
  : list (Async P JSValue * Request) :=
  vote_calls P pollId optionId token ++ results_calls P pollId.

(** ["HTTP {status}: {statusText}"] *)
Definition fallback_message (response : Response) : JSString :=
  str "HTTP " ++ Number_toString (Int (status response)) ++ str ": " ++
  statusText response.

(** The host state after one more [fetch]. *)
Definition after_fetch {P : Platform} (h : Host P) (request : Request) (w : World P)
  : Host P :=
  {| world := w; issued := issued h ++ [request] |}.

Definition isDecimalDigit (c : CodeUnit) : bool := ((48 <=? c) && (c <=? 57))%N.


(** ** Example platforms *)

Definition not_found_response : Response :=
  {| ok := false;
     status := 404;
     statusText := str "Not Found";
     json := Normal (JObject [(str "detail", JString (str "Poll not found"))]) |}.

(** Every request is answered [404] with a [detail]. *)
Definition not_found_service : Platform :=
  {| World := unit;
     network := fun _ w => (Normal not_found_response, w) |}.

Definition server_error_response : Response :=
  {| ok := false;
     status := 500;
     statusText := str "Internal Server Error";
     json := Throw (JError (str "SyntaxError")
                      (str "Unexpected token < in JSON at position 0")) |}.

(** Every request is answered [500] with a body that is not JSON. *)
Definition failing_service : Platform :=
  {| World := unit;
     network := fun _ w => (Normal server_error_response, w) |}.

(** The [detail] of a validation error: a list of findings. *)
Definition validation_detail : JSValue :=
  JArray
    [JObject [(str "loc", JArray [JString (str "body"); JString (str "option_id")]);
              (str "msg", JString (str "value is not a valid integer"));
              (str "type", JString (str "type_error.integer"))]].

Definition validation_response : Response :=
  {| ok := false;
     status := 422;
     statusText := str "Unprocessable Entity";
     json := Normal (JObject [(str "detail", validation_detail)]) |}.

(** Every request is answered [422] with a structured [detail]. *)
Definition validating_service : Platform :=
  {| World := unit;
     network := fun _ w => (Normal validation_response, w) |}.

(** No connection: [fetch] rejects with its [TypeError]. *)
Definition refused_network : Platform :=
  {| World := unit;
     network := fun _ w => (Throw (TypeError (str "Failed to fetch")), w) |}.

(** A test double that rejects with a string. *)
Definition rejecting_network : Platform :=
  {| World := unit;
     network := fun _ w => (Throw (JString (str "connection refused")), w) |}.

Definition vote_record (id : Z) : JSValue :=
  JObject [(str "id", JNumber (Int id));
           (str "user_id", JNumber (Int 7));
           (str "option_id", JNumber (Int 2));
           (str "created_at", JString (str "2025-01-01T00:00:00"))].

Definition poll_results (votes : Z) : JSValue :=
  JObject [(str "poll_id", JNumber (Int 1));
           (str "question", JString (str "Tea or coffee?"));
           (str "results",
            JArray [JObject [(str "option_id", JNumber (Int 2));
                             (str "text", JString (str "Coffee"));
                             (str "vote_count", JNumber (Int votes))];
                    JObject [(str "option_id", JNumber (Int 1));
                             (str "text", JString (str "Tea"));
                             (str "vote_count", JNumber (Int 0))]])].

Definition vote_body_2 : JSString :=
  match JSON_stringify (JObject [(str "option_id", JNumber (Int 2))]) with
  | Some s => s
  | None => []
  end.

(** A poll service with one poll; its world is the number of votes cast
    for option 2.  A request with a body is a vote (accepted for option 2
    only), one without is a read of the results. *)
Definition poll_service : Platform :=
  {| World := Z;
     network := fun request votes =>
       match body request with
       | Some b =>
           if string_eqb b vote_body_2 then
             (Normal {| ok := true; status := 200; statusText := str "OK";
                        json := Normal (vote_record (votes + 1)) |},
              votes + 1)
           else (Normal validation_response, votes)
       | None =>
           (Normal {| ok := true; status := 200; statusText := str "OK";
                      json := Normal (poll_results votes) |},
            votes)
       end |}.

(** Every request is answered [200] with the JSON body [null]. *)
Definition null_body_service : Platform :=
  {| World := unit;
     network := fun _ w =>
       (Normal {| ok := true; status := 200; statusText := str "OK";
                  json := Normal JNull |}, w) |}.

(** ** Numbers: rounding and printing *)




Lemma Number_toString_safe (n : Z) :
  safe_integer n = true ->
  Number_toString (Int n) = sign_prefix (n <? 0) ++ digits (Z.abs n).
Proof.
  intros Hsafe. unfold Number_toString. rewrite Hsafe.
  destruct (Z.eqb_spec n 0) as [-> | _]; reflexivity.
Qed.

(** Below [2^53] rounding is exact. *)
Lemma binary64_round_small (a : Z) :
  0 < a < 2 ^ 53 ->
  binary64_round a 1 = Some (a * 2 ^ (52 - Z.log2 a), Z.log2 a - 52).
Proof.
  intros [Hpos Hlt].
  pose proof (Z.log2_nonneg a) as He0.
  assert (He52 : Z.log2 a <= 52) by (apply Z.log2_lt_pow2 in Hlt; lia).
  pose proof (Z.log2_spec a Hpos) as [Hlow _].
  unfold binary64_round, scale2.
  change (Z.log2 1) with 0. rewrite Z.sub_0_r.
  assert (H1 : (0 <=? Z.log2 a) = true) by (apply Z.leb_le; lia).
  rewrite H1.
  assert (H2 : (a <? 1 * 2 ^ Z.log2 a) = false) by (apply Z.ltb_ge; lia).
  rewrite H2.
  rewrite Z.max_l by lia.
  assert (Hm : Z.log2 (a * 2 ^ (52 - Z.log2 a)) = 52).
  { rewrite Z.log2_mul_pow2 by lia. lia. }
  destruct (Z.leb_spec 0 (Z.log2 a - 52)) as [Hge | Hneg].
  - assert (E : Z.log2 a = 52) by lia.
    rewrite E in *. change (1 * 2 ^ (52 - 52)) with 1.
    change (2 ^ (52 - 52)) with 1 in *.
    rewrite Z.div_1_r, Z.mod_1_r. simpl orb. cbv iota.
    rewrite Z.mul_1_r in *. rewrite Hm. reflexivity.
  - replace (- (Z.log2 a - 52)) with (52 - Z.log2 a) by lia.
    rewrite Z.div_1_r, Z.mod_1_r. simpl orb. cbv iota.
    rewrite Hm.
    destruct (Z.leb_spec 1024 (52 + (Z.log2 a - 52))); [lia | reflexivity].
Qed.

Lemma NumberOfInteger_safe (v : Z) :
  v <> 0 -> Z.abs v < 2 ^ 53 -> NumberOfInteger v = Int v.
Proof.
  intros Hnz Hlt. unfold NumberOfInteger.
  destruct (Z.eqb_spec v 0) as [| _]; [contradiction |].
  rewrite binary64_round_small by lia.
  pose proof (Z.log2_nonneg (Z.abs v)) as He0.
  assert (He52 : Z.log2 (Z.abs v) <= 52) by (apply Z.log2_lt_pow2 in Hlt; lia).
  f_equal.
  destruct (Z.leb_spec 0 (Z.log2 (Z.abs v) - 52)) as [Hge | Hneg].
  - replace (Z.log2 (Z.abs v) - 52) with 0 by lia.
    replace (52 - Z.log2 (Z.abs v)) with 0 by lia.
    change (2 ^ 0) with 1. destruct v; simpl; lia.
  - replace (- (Z.log2 (Z.abs v) - 52)) with (52 - Z.log2 (Z.abs v)) by lia.
    rewrite Z.div_mul by (apply Z.pow_nonzero; lia).
    destruct v; simpl; lia.
Qed.

(** *** Rounding at and above [2^53] *)

(** Above [2^53] the last kept bit has a non-negative exponent:
    [binary64_round] divides by the spacing [2^e] of the binade. *)
Lemma binary64_round_large (p : Z) :
  2 ^ 53 <= p ->
  let e := Z.log2 p - 52 in
  let m := p / 2 ^ e in
  let r := p mod 2 ^ e in
  let m' := if (2 ^ e <? 2 * r) || ((2 ^ e =? 2 * r) && Z.odd m) then m + 1 else m in
  binary64_round p 1 = if 1024 <=? Z.log2 m' + e then None else Some (m', e).
Proof.
  intros Hbig e m r m'.
  assert (Hpos : 0 < p) by (pose proof (Z.pow_pos_nonneg 2 53); lia).
  pose proof (Z.log2_spec p Hpos) as [Hlow _].
  assert (HL : 53 <= Z.log2 p) by (apply Z.log2_le_pow2; assumption).
  unfold binary64_round, scale2.
  change (Z.log2 1) with 0. rewrite Z.sub_0_r.
  assert (H1 : (0 <=? Z.log2 p) = true) by (apply Z.leb_le; lia).
  rewrite H1.
  assert (H2 : (p <? 1 * 2 ^ Z.log2 p) = false) by (apply Z.ltb_ge; lia).
  rewrite H2.
  rewrite Z.max_l by lia.
  assert (H3 : (0 <=? Z.log2 p - 52) = true) by (apply Z.leb_le; lia).
  rewrite H3, Z.mul_1_l.
  reflexivity.
Qed.

(** What the rounding at spacing [E = 2^e] keeps: the multiple of [E] next
    to [p] below or above, at most half a spacing away. *)
Lemma round_to_spacing (p E K : Z) :
  0 < E -> 0 < K -> K * E <= p < 2 * K * E ->
  let m := p / E in
  let r := p mod E in
  let m' := if (E <? 2 * r) || ((E =? 2 * r) && Z.odd m) then m + 1 else m in
  K <= m < 2 * K /\
  p = m * E + r /\ 0 <= r < E /\
  ((m' = m /\ 2 * r <= E) \/ (m' = m + 1 /\ E <= 2 * r)).
Proof.
  intros HE HK [Hlow Hhigh]. cbv zeta.
  pose proof (Z.div_mod p E ltac:(lia)) as Hdiv.
  pose proof (Z.mod_pos_bound p E HE) as Hr.
  assert (Hm : K <= p / E < 2 * K).
  { split.
    - apply Z.div_le_lower_bound; nia.
    - apply Z.div_lt_upper_bound; nia. }
  set (m := p / E) in *. set (r := p mod E) in *. clearbody m r.
  split; [exact Hm |]. split; [lia |]. split; [exact Hr |].
  destruct (Z.ltb_spec E (2 * r)); cbn [orb andb].
  - right. lia.
  - destruct (Z.eqb_spec E (2 * r)); cbn [orb andb].
    + destruct (Z.odd m); [right | left]; lia.
    + left. lia.
Qed.

(** [NumberOfInteger] at and above [2^53]: with [E] the spacing of the
    binade of [v], the multiple of [E] just below [|v|] or the next one,
    whichever is at most half a spacing away, unless that overflows. *)
Lemma NumberOfInteger_large (v : Z) :
  2 ^ 53 <= Z.abs v ->
  let e := Z.log2 (Z.abs v) - 52 in
  exists m r m' : Z,
    1 <= e /\
    2 ^ 52 <= m < 2 ^ 53 /\
    Z.abs v = m * 2 ^ e + r /\ 0 <= r < 2 ^ e /\
    ((m' = m /\ 2 * r <= 2 ^ e) \/ (m' = m + 1 /\ 2 ^ e <= 2 * r)) /\
    NumberOfInteger v =
      if 1024 <=? Z.log2 m' + e then Infinity (v <? 0)
      else Int (Z.sgn v * (m' * 2 ^ e)).
Proof.
  intros Hbig e.
  assert (H53 : 0 < 2 ^ 53) by (apply Z.pow_pos_nonneg; lia).
  assert (Hpos : 0 < Z.abs v) by lia.
  pose proof (Z.log2_spec (Z.abs v) Hpos) as [Hlow Hhigh].
  assert (HL : 53 <= Z.log2 (Z.abs v)) by (apply Z.log2_le_pow2; assumption).
  assert (He : 1 <= e) by (unfold e; lia).
  assert (HE : 0 < 2 ^ e) by (apply Z.pow_pos_nonneg; lia).
  assert (HK : 0 < 2 ^ 52) by (apply Z.pow_pos_nonneg; lia).
  assert (Hsplit : 2 ^ Z.log2 (Z.abs v) = 2 ^ 52 * 2 ^ e).
  { rewrite <- Z.pow_add_r by lia. f_equal. unfold e. lia. }
  assert (Hnext : 2 ^ Z.succ (Z.log2 (Z.abs v)) = 2 * 2 ^ 52 * 2 ^ e).
  { rewrite Z.pow_succ_r by lia. lia. }
  assert (Hrange : 2 ^ 52 * 2 ^ e <= Z.abs v < 2 * 2 ^ 52 * 2 ^ e) by lia.
  destruct (round_to_spacing (Z.abs v) (2 ^ e) (2 ^ 52) HE HK Hrange)
    as (Hm & Hdiv & Hr & Hup).
  change (2 * 2 ^ 52) with (2 ^ 53) in Hm.
  eexists _, _, _.
  split; [exact He |]. split; [exact Hm |]. split; [exact Hdiv |].
  split; [exact Hr |]. split; [exact Hup |].
  unfold NumberOfInteger.
  destruct (Z.eqb_spec v 0) as [E0 | _]; [lia |].
  rewrite (binary64_round_large (Z.abs v) Hbig). fold e.
  destruct (1024 <=? _); [reflexivity |].
  destruct (Z.leb_spec 0 e); [reflexivity | lia].
Qed.

Lemma log2_binade (m e : Z) :
  0 <= e -> 2 ^ 52 <= m < 2 ^ 53 -> Z.log2 (m * 2 ^ e) = 52 + e.
Proof.
  intros He Hm.
  assert (HK : 0 < 2 ^ 52) by (apply Z.pow_pos_nonneg; lia).
  rewrite Z.log2_mul_pow2 by lia.
  rewrite (Z.log2_unique m 52); [lia | lia |].
  change (Z.succ 52) with 53. exact Hm.
Qed.

Lemma multiple_unique (a b E r : Z) :
  0 < E -> a * E = b * E + r -> 0 <= r < E -> b = a /\ r = 0.
Proof.
  intros HE Heq Hr.
  assert (b = a); [| subst; lia].
  destruct (Z.lt_trichotomy b a) as [Hlt | [Heq' | Hgt]]; [| exact Heq' |]; exfalso.
  - assert ((b + 1) * E <= a * E) by (apply Z.mul_le_mono_nonneg_r; lia). lia.
  - assert ((a + 1) * E <= b * E) by (apply Z.mul_le_mono_nonneg_r; lia). lia.
Qed.

Lemma sign_cases (v : Z) :
  v <> 0 -> (0 < v /\ Z.sgn v = 1 /\ Z.abs v = v) \/
            (v < 0 /\ Z.sgn v = -1 /\ Z.abs v = - v).
Proof. destruct v; cbn; intros H; [congruence | left | right]; lia. Qed.

(** The integer a rounding gives is a Number: rounding it again gives it
    back. *)
Lemma NumberOfInteger_idempotent (v n : Z) :
  NumberOfInteger v = Int n -> NumberOfInteger n = Int n.
Proof.
  intros Hv.
  assert (H53 : 0 < 2 ^ 53) by (apply Z.pow_pos_nonneg; lia).
  assert (HK : 0 < 2 ^ 52) by (apply Z.pow_pos_nonneg; lia).
  assert (H5253 : 2 ^ 53 = 2 * 2 ^ 52) by reflexivity.
  destruct (Z.lt_ge_cases (Z.abs v) (2 ^ 53)) as [Hsmall | Hbig].
  { destruct (Z.eq_dec v 0) as [-> | Hnz].
    - injection Hv as <-. reflexivity.
    - rewrite (NumberOfInteger_safe v Hnz Hsmall) in Hv.
      injection Hv as <-. apply NumberOfInteger_safe; assumption. }
  destruct (NumberOfInteger_large v Hbig)
    as (m & r & m' & He & Hm & Hdiv & Hr & Hup & Hround).
  set (e := Z.log2 (Z.abs v) - 52) in *.
  assert (HE : 0 < 2 ^ e) by (apply Z.pow_pos_nonneg; lia).
  assert (HE2 : 2 <= 2 ^ e).
  { change 2 with (2 ^ 1) at 1. apply Z.pow_le_mono_r; lia. }
  rewrite Hv in Hround.
  destruct (Z.leb_spec 1024 (Z.log2 m' + e)) as [| Hfinite]; [discriminate |].
  injection Hround as Hn.
  assert (Hm' : 2 ^ 52 <= m' <= 2 ^ 53) by lia.
  set (X := m' * 2 ^ e) in *.
  assert (HX : 2 ^ 53 <= X) by (unfold X; nia).
  assert (Hsigns : Z.abs n = X /\ Z.sgn n = Z.sgn v).
  { destruct (sign_cases v ltac:(lia)) as [(_ & Hs & _) | (_ & Hs & _)];
      rewrite Hs in Hn |- *; subst n.
    - replace (1 * X) with X by lia. split; [apply Z.abs_eq | apply Z.sgn_pos]; lia.
    - replace (-1 * X) with (- X) by lia.
      split; [rewrite Z.abs_opp; apply Z.abs_eq | apply Z.sgn_neg]; lia. }
  destruct Hsigns as [Habs Hsgn].
  assert (HbigN : 2 ^ 53 <= Z.abs n) by lia.
  destruct (NumberOfInteger_large n HbigN)
    as (m2 & r2 & m2' & He2 & Hm2 & Hdiv2 & Hr2 & Hup2 & Hround2).
  rewrite Habs, Hsgn in *.
  destruct (Z.eq_dec m' (2 ^ 53)) as [Htop | Hbelow].
  - (* the rounding went up to the next binade *)
    assert (Hlog : Z.log2 X = 53 + e).
    { unfold X. rewrite Htop, <- Z.pow_add_r by lia. apply Z.log2_pow2. lia. }
    rewrite Hlog in *.
    replace (53 + e - 52) with (e + 1) in * by lia.
    assert (Hpow : 2 ^ (e + 1) = 2 * 2 ^ e) by (rewrite Z.pow_add_r by lia; lia).
    rewrite Hpow in *.
    assert (Hm2eq : m2 = 2 ^ 52 /\ r2 = 0).
    { apply (multiple_unique (2 ^ 52) m2 (2 * 2 ^ e) r2); [lia | | exact Hr2].
      rewrite <- Hdiv2. unfold X. rewrite Htop. lia. }
    destruct Hm2eq as [-> ->].
    assert (Hm2' : m2' = 2 ^ 52) by lia. subst m2'.
    rewrite Hround2.
    rewrite Htop in Hfinite. change (Z.log2 (2 ^ 53)) with 53 in Hfinite.
    change (Z.log2 (2 ^ 52)) with 52.
    destruct (Z.leb_spec 1024 (52 + (e + 1))); [lia |].
    f_equal. rewrite Hn. unfold X. rewrite Htop. lia.
  - assert (Hlog : Z.log2 X = 52 + e) by (apply log2_binade; lia).
    rewrite Hlog in *.
    replace (52 + e - 52) with e in * by lia.
    assert (Hm2eq : m2 = m' /\ r2 = 0)
      by (apply (multiple_unique m' m2 (2 ^ e) r2 HE Hdiv2 Hr2)).
    destruct Hm2eq as [-> ->].
    assert (Hm2' : m2' = m') by lia. subst m2'.
    rewrite Hround2.
    destruct (Z.leb_spec 1024 (Z.log2 m' + e)); [lia |].
    f_equal. rewrite Hn. reflexivity.
Qed.

(** A Number at or above the lower end of a binade is a multiple of the
    spacing of that binade. *)
Lemma Number_multiple_of_spacing (d L : Z) :
  53 <= L -> 2 ^ L <= Z.abs d -> NumberOfInteger d = Int d ->
  exists k : Z, Z.abs d = k * 2 ^ (L - 52).
Proof.
  intros HL Hlow Hd.
  assert (HpL : 2 ^ 53 <= 2 ^ L) by (apply Z.pow_le_mono_r; lia).
  assert (H53 : 0 < 2 ^ 53) by (apply Z.pow_pos_nonneg; lia).
  assert (Hbig : 2 ^ 53 <= Z.abs d) by lia.
  assert (HLd : L <= Z.log2 (Z.abs d)) by (apply Z.log2_le_pow2; lia).
  destruct (NumberOfInteger_large d Hbig)
    as (m & r & m' & He & Hm & Hdiv & Hr & Hup & Hround).
  set (e := Z.log2 (Z.abs d) - 52) in *.
  rewrite Hd in Hround.
  destruct (1024 <=? Z.log2 m' + e); [discriminate |].
  injection Hround as Hval.
  assert (HE : 0 < 2 ^ e) by (apply Z.pow_pos_nonneg; lia).
  assert (HK : 0 < 2 ^ 52) by (apply Z.pow_pos_nonneg; lia).
  assert (Hm' : 0 < m') by lia.
  assert (Habs : Z.abs d = m' * 2 ^ e).
  { assert (HX : 0 < m' * 2 ^ e) by (apply Z.mul_pos_pos; lia).
    destruct (sign_cases d ltac:(lia)) as [(_ & Hs & Ha) | (_ & Hs & Ha)];
      rewrite Hs in Hval; lia. }
  exists (m' * 2 ^ (e - (L - 52))).
  rewrite Habs, <- Z.mul_assoc, <- Z.pow_add_r by (unfold e; lia).
  f_equal. f_equal. lia.
Qed.

(** Rounding gives a nearest Number: no Number is closer to [v] than the
    one [NumberOfInteger v] is. *)
Lemma NumberOfInteger_nearest (v n d : Z) :
  NumberOfInteger v = Int n ->
  NumberOfInteger d = Int d ->
  Z.abs (v - n) <= Z.abs (v - d).
Proof.
  intros Hv Hd.
  assert (H53 : 0 < 2 ^ 53) by (apply Z.pow_pos_nonneg; lia).
  assert (HK : 0 < 2 ^ 52) by (apply Z.pow_pos_nonneg; lia).
  destruct (Z.lt_ge_cases (Z.abs v) (2 ^ 53)) as [Hsmall | Hbig].
  { destruct (Z.eq_dec v 0) as [-> | Hnz].
    - injection Hv as <-. lia.
    - rewrite (NumberOfInteger_safe v Hnz Hsmall) in Hv.
      injection Hv as <-. lia. }
  destruct (NumberOfInteger_large v Hbig)
    as (m & r & m' & He & Hm & Hdiv & Hr & Hup & Hround).
  pose proof (Z.log2_spec (Z.abs v) ltac:(lia)) as [HlowL _].
  assert (HL : 53 <= Z.log2 (Z.abs v)) by (apply Z.log2_le_pow2; lia).
  set (L := Z.log2 (Z.abs v)) in *.
  set (E := 2 ^ (L - 52)) in *.
  assert (HE : 0 < E) by (apply Z.pow_pos_nonneg; lia).
  assert (HLsplit : 2 ^ L = 2 ^ 52 * E).
  { unfold E. rewrite <- Z.pow_add_r by lia. f_equal. lia. }
  rewrite Hv in Hround.
  destruct (1024 <=? Z.log2 m' + (L - 52)); [discriminate |].
  injection Hround as Hn.
  set (A := m * E) in *.
  assert (HA : 2 ^ L <= A).
  { rewrite HLsplit. unfold A. apply Z.mul_le_mono_nonneg_r; lia. }
  assert (HX : m' * E = A /\ 2 * r <= E \/ m' * E = A + E /\ E <= 2 * r).
  { destruct Hup as [[-> H] | [-> H]]; [left | right]; unfold A; lia. }
  set (X := m' * E) in *.
  (* where the magnitude of a Number of the sign of [v] can lie *)
  assert (Hwhere : Z.abs d < A \/ Z.abs d = A \/ A + E <= Z.abs d).
  { destruct (Z.lt_ge_cases (Z.abs d) A) as [Hlt | Hge]; [left; exact Hlt | right].
    destruct (Number_multiple_of_spacing d L HL ltac:(lia) Hd) as [k Hk].
    fold E in Hk.
    destruct (Z.lt_trichotomy k m) as [Hkm | [Hkm | Hkm]].
    - exfalso.
      assert ((k + 1) * E <= m * E) by (apply Z.mul_le_mono_nonneg_r; lia).
      unfold A in Hge. lia.
    - left. subst k. exact Hk.
    - right.
      assert ((m + 1) * E <= k * E) by (apply Z.mul_le_mono_nonneg_r; lia).
      unfold A. lia. }
  clearbody X A E L.
  destruct (sign_cases v ltac:(lia)) as [(Hpos & Hs & Ha) | (Hneg & Hs & Ha)];
    rewrite Hs in Hn; lia.
Qed.

(** Rounding overflows only beyond the largest finite Number. *)
Lemma NumberOfInteger_cases (v : Z) :
  (exists n : Z, NumberOfInteger v = Int n) \/
  (NumberOfInteger v = Infinity (v <? 0) /\ (2 ^ 53 - 1) * 2 ^ 971 < Z.abs v).
Proof.
  assert (H53 : 0 < 2 ^ 53) by (apply Z.pow_pos_nonneg; lia).
  assert (HK : 0 < 2 ^ 52) by (apply Z.pow_pos_nonneg; lia).
  destruct (Z.lt_ge_cases (Z.abs v) (2 ^ 53)) as [Hsmall | Hbig].
  { left. destruct (Z.eq_dec v 0) as [-> | Hnz].
    - exists 0. reflexivity.
    - exists v. apply NumberOfInteger_safe; assumption. }
  destruct (NumberOfInteger_large v Hbig)
    as (m & r & m' & He & Hm & Hdiv & Hr & Hup & Hround).
  set (e := Z.log2 (Z.abs v) - 52) in *.
  rewrite Hround.
  destruct (Z.leb_spec 1024 (Z.log2 m' + e)) as [Hover | _];
    [right | left; eexists; reflexivity].
  split; [reflexivity |].
  assert (HE : 0 < 2 ^ e) by (apply Z.pow_pos_nonneg; lia).
  destruct (Z.eq_dec m' (2 ^ 53)) as [Htop | Hbelow].
  - rewrite Htop in Hover. change (Z.log2 (2 ^ 53)) with 53 in Hover.
    assert (Hpow : 2 ^ 971 <= 2 ^ e) by (apply Z.pow_le_mono_r; lia).
    assert (Hm1 : m = 2 ^ 53 - 1 /\ 2 ^ e <= 2 * r) by lia.
    destruct Hm1 as [-> Hr2].
    assert ((2 ^ 53 - 1) * 2 ^ 971 <= (2 ^ 53 - 1) * 2 ^ e)
      by (apply Z.mul_le_mono_nonneg_l; lia).
    lia.
  - assert (Hlog : Z.log2 m' = 52).
    { apply Z.log2_unique; [lia |]. change (Z.succ 52) with 53. lia. }
    rewrite Hlog in Hover.
    assert (Hpow : 2 ^ 972 <= 2 ^ e) by (apply Z.pow_le_mono_r; lia).
    assert (2 ^ 52 * 2 ^ 972 <= m * 2 ^ e) by (apply Z.mul_le_mono_nonneg; lia).
    assert ((2 ^ 53 - 1) * 2 ^ 971 < 2 ^ 52 * 2 ^ 972) by (vm_compute; reflexivity).
    lia.
Qed.

(** *** The shortest decimal is one that rounds back *)








(** ** parseInt on a signed run of decimal digits *)

Lemma parseInt_10 (string : JSString) :
  parseInt string 10 =
    let s := TrimStart string in
    let negative := match s with c :: _ => unit_eqb c 45 | [] => false end in
    let s :=
      match s with
      | c :: s' => if unit_eqb c 43 || unit_eqb c 45 then s' else s
      | [] => s
      end in
    match digit_prefix 10 s with
    | [] => NaN
    | ds =>
        let mathInt := radix_value 10 ds in
        if mathInt =? 0 then (if negative then NegZero else Int 0)
        else NumberOfInteger (if negative then - mathInt else mathInt)
    end.
Proof. reflexivity. Qed.

Lemma decimal_digit_cases (c : CodeUnit) :
  isDecimalDigit c = true ->
  (c = 48 \/ c = 49 \/ c = 50 \/ c = 51 \/ c = 52 \/
   c = 53 \/ c = 54 \/ c = 55 \/ c = 56 \/ c = 57)%N.
Proof.
  unfold isDecimalDigit. intros H. apply andb_prop in H as [Hlow Hhigh].
  apply N.leb_le in Hlow, Hhigh. lia.
Qed.

Lemma decimal_digit_not_space (c : CodeUnit) :
  isDecimalDigit c = true -> isWhiteSpace c = false.
Proof.
  intros H. apply decimal_digit_cases in H.
  repeat (destruct H as [-> | H]; [reflexivity |]). subst c. reflexivity.
Qed.

Lemma decimal_digit_not_sign (c : CodeUnit) :
  isDecimalDigit c = true -> unit_eqb c 43 || unit_eqb c 45 = false.
Proof.
  intros H. apply decimal_digit_cases in H.
  repeat (destruct H as [-> | H]; [reflexivity |]). subst c. reflexivity.
Qed.

Lemma decimal_digit_not_minus (c : CodeUnit) :
  isDecimalDigit c = true -> unit_eqb c 45 = false.
Proof.
  intros H. apply decimal_digit_cases in H.
  repeat (destruct H as [-> | H]; [reflexivity |]). subst c. reflexivity.
Qed.

Lemma isRadixDigit_10 (c : CodeUnit) : isRadixDigit 10 c = isDecimalDigit c.
Proof.
  unfold isRadixDigit, digit_value, isDecimalDigit.
  destruct (N.leb_spec 48 c), (N.leb_spec c 57); simpl;
    try (apply Z.ltb_lt; lia);
    destruct (N.leb_spec 97 c), (N.leb_spec c 122); simpl;
    try (apply Z.ltb_ge; lia);
    destruct (N.leb_spec 65 c), (N.leb_spec c 90); simpl;
    try (apply Z.ltb_ge; lia); reflexivity.
Qed.

Lemma TrimStart_spaces (ws s : JSString) :
  Forall (fun c => isWhiteSpace c = true) ws -> TrimStart (ws ++ s) = TrimStart s.
Proof.
  induction 1 as [| c ws Hc _ IH]; simpl; [reflexivity |].
  rewrite Hc. exact IH.
Qed.

Lemma digit_prefix_run (ds rest : JSString) :
  Forall (fun c => isDecimalDigit c = true) ds ->
  match rest with [] => True | c :: _ => isDecimalDigit c = false end ->
  digit_prefix 10 (ds ++ rest) = ds.
Proof.
  intros Hds Hrest. induction Hds as [| c ds Hc _ IH]; simpl.
  - destruct rest as [| c rest]; [reflexivity |].
    simpl. rewrite isRadixDigit_10, Hrest. reflexivity.
  - rewrite isRadixDigit_10, Hc, IH. reflexivity.
Qed.

(** [parseInt] of optional white space, an optional sign, decimal digits
    and anything that does not start with a digit. *)
Lemma parseInt_signed_digits (ws sign ds rest : JSString) :
  Forall (fun c => isWhiteSpace c = true) ws ->
  sign = [] \/ sign = str "+" \/ sign = str "-" ->
  ds <> [] ->
  Forall (fun c => isDecimalDigit c = true) ds ->
  match rest with [] => True | c :: _ => isDecimalDigit c = false end ->
  parseInt (ws ++ sign ++ ds ++ rest) 10 =
    let negative := string_eqb sign (str "-") in
    let mathInt := radix_value 10 ds in
    if mathInt =? 0 then (if negative then NegZero else Int 0)
    else NumberOfInteger (if negative then - mathInt else mathInt).
Proof.
  intros Hws Hsign Hne Hds Hrest.
  rewrite parseInt_10, TrimStart_spaces by assumption.
  pose proof (digit_prefix_run ds rest Hds Hrest) as Hprefix.
  destruct ds as [| d ds']; [congruence |].
  assert (Hd : isDecimalDigit d = true) by (inversion Hds; assumption).
  simpl app in Hprefix.
  destruct Hsign as [-> | [-> | ->]].
  - simpl app. simpl TrimStart.
    rewrite (decimal_digit_not_space d Hd). cbv beta iota zeta.
    rewrite (decimal_digit_not_sign d Hd), (decimal_digit_not_minus d Hd).
    rewrite Hprefix. reflexivity.
  - change (str "+" ++ (d :: ds') ++ rest) with (43%N :: (d :: ds') ++ rest).
    simpl TrimStart. cbv beta iota zeta. simpl orb. cbv beta iota.
    simpl app. rewrite Hprefix. reflexivity.
  - change (str "-" ++ (d :: ds') ++ rest) with (45%N :: (d :: ds') ++ rest).
    simpl TrimStart. cbv beta iota zeta. simpl orb. cbv beta iota.
    simpl app. rewrite Hprefix. reflexivity.
Qed.


(** ** String conversion *)

Lemma sequence_ToString_throws (elements : list JSValue) (t : JSValue) :
  Forall (fun e => forall t, ToString e = Throw t -> instanceof_Error t = true)
    elements ->
  sequence
    (List.map
       (fun e => match e with
                 | JUndefined | JNull => Normal []
                 | _ => ToString e
                 end) elements) = Throw t ->
  instanceof_Error t = true.
Proof.
  induction 1 as [| e rest He _ IH]; simpl; [discriminate |].
  set (c := match e with JUndefined | JNull => Normal [] | _ => ToString e end).
  assert (Hc : forall t, c = Throw t -> instanceof_Error t = true).
  { subst c. destruct e; try discriminate; apply He. }
  destruct c as [a | v].
  - destruct (sequence _); [discriminate | exact IH].
  - intros [= <-]. apply Hc. reflexivity.
Qed.

(** Whatever [ToString] throws is a [TypeError]. *)
Lemma ToString_throws_Error (v t : JSValue) :
  ToString v = Throw t -> instanceof_Error t = true.
Proof.
  revert t. induction v using JSValue_ind'; intros t; simpl; try discriminate.
  - intros Hs. apply (sequence_ToString_throws elements t H).
    destruct (sequence _); [discriminate | congruence].
  - destruct (own_property _ _); [intros [= <-]; reflexivity | discriminate].
Qed.

(** ** Running the client *)

(** Takes one of the four exported functions, and unfolds it down to the
    call of the network. *)
Ltac each_call Hin :=
  unfold client_calls, vote_calls, results_calls in Hin;
  simpl in Hin;
  destruct Hin as [E | [E | [E | [E | []]]]];
  inversion E; subst; clear E;
  [ unfold PollApi.submitVote
  | unfold SubmitVoteFile.submitVote
  | unfold PollApi.fetchPollResults
  | unfold FetchPollResultsFile.fetchPollResults ];
  unfold try_catch, bind, fetch, lift, ret, throw;
  unfold vote_request, results_request in *.

Arguments str : simpl never.
Arguments Number_toString : simpl never.
Arguments parseInt : simpl never.
Arguments JSON_stringify : simpl never.
Arguments ToString : simpl never.
Arguments new_Error : simpl never.

Section Runs.

Variable P : Platform.
Variables pollId optionId token : JSString.
Variable call : Async P JSValue.
Variable request : Request.
Hypothesis Hcall : In (call, request) (client_calls P pollId optionId token).
Variable h : Host P.

(** [fetch] throws an [Error]: the catch clause throws it again. *)
Lemma run_fetch_throws_Error (v : JSValue) (w : World P) :
  network P request (world h) = (Throw v, w) ->
  instanceof_Error v = true ->
  call h = (Throw v, after_fetch h request w).
Proof.
  intros Hnet Hv. pose proof Hcall as Hin.
  each_call Hin; rewrite Hnet, Hv; reflexivity.
Qed.

(** [fetch] throws something else: the catch clause wraps its string. *)
Lemma run_fetch_throws_other (v : JSValue) (w : World P) :
  network P request (world h) = (Throw v, w) ->
  instanceof_Error v = false ->
  call h =
    (match ToString v with
     | Normal s => Throw (JError (str "Error") (str "Network error: " ++ s))
     | Throw t => Throw t
     end, after_fetch h request w).
Proof.
  intros Hnet Hv. pose proof Hcall as Hin.
  each_call Hin; rewrite Hnet, Hv; unfold String_;
    destruct (ToString v); reflexivity.
Qed.

(** A success response: the decoded body is the result. *)
Lemma run_ok (response : Response) (w : World P) :
  network P request (world h) = (Normal response, w) ->
  ok response = true ->
  call h =
    (match json response with
     | Normal payload => Normal payload
     | Throw v =>
         if instanceof_Error v then Throw v
         else
           match ToString v with
           | Normal s => Throw (JError (str "Error") (str "Network error: " ++ s))
           | Throw t => Throw t
           end
     end, after_fetch h request w).
Proof.
  intros Hnet Hok. pose proof Hcall as Hin.
  each_call Hin; rewrite Hnet, Hok; simpl;
    destruct (json response) as [payload | v]; try reflexivity;
    destruct (instanceof_Error v); try reflexivity;
    unfold String_; destruct (ToString v); reflexivity.
Qed.

Lemma new_Error_truthy (detail : JSValue) :
  ToBoolean detail = true ->
  new_Error detail =
    match ToString detail with
    | Normal s => Normal (JError (str "Error") s)
    | Throw t => Throw t
    end.
Proof. destruct detail; (discriminate || reflexivity). Qed.

(** A non-success response whose body carries a truthy [detail]. *)
Lemma run_not_ok_detail (response : Response) (w : World P)
  (errorData detail : JSValue) :
  network P request (world h) = (Normal response, w) ->
  ok response = false ->
  json response = Normal errorData ->
  Get errorData (str "detail") = Normal detail ->
  ToBoolean detail = true ->
  call h =
    (match ToString detail with
     | Normal s => Throw (JError (str "Error") s)
     | Throw t => Throw t
     end, after_fetch h request w).
Proof.
  intros Hnet Hok Hjson Hget Htruthy. pose proof Hcall as Hin.
  pose proof (new_Error_truthy detail Htruthy) as Hnew.
  pose proof (ToString_throws_Error detail) as Herr.
  each_call Hin; rewrite Hnet, Hok; simpl; rewrite Hjson, Hget, Htruthy, Hnew;
    destruct (ToString detail) as [s | t]; try reflexivity;
    simpl; rewrite (Herr t eq_refl); reflexivity.
Qed.

(** A non-success response without a truthy [detail]. *)
Lemma run_not_ok_fallback (response : Response) (w : World P) :
  network P request (world h) = (Normal response, w) ->
  ok response = false ->
  (forall errorData detail,
      json response = Normal errorData ->
      Get errorData (str "detail") = Normal detail ->
      ToBoolean detail = false) ->
  call h =
    (Throw (JError (str "Error") (fallback_message response)),
     after_fetch h request w).
Proof.
  intros Hnet Hok Hno. pose proof Hcall as Hin.
  assert (Hmsg :
    match json response with
    | Normal errorData =>
        match Get errorData (str "detail") with
        | Normal detail => ToBoolean detail = false
        | Throw _ => True
        end
    | Throw _ => True
    end).
  { destruct (json response) as [errorData |]; [| exact I].
    destruct (Get errorData (str "detail")) as [detail |] eqn:Hget; [| exact I].
    exact (Hno errorData detail eq_refl Hget). }
  each_call Hin; rewrite Hnet, Hok; simpl;
    destruct (json response) as [errorData |]; try reflexivity;
    destruct (Get errorData (str "detail")) as [detail |]; try reflexivity;
    rewrite Hmsg; reflexivity.
Qed.

End Runs.


(** Each call hands exactly one request to [fetch]. *)
Lemma run_issues_one (P : Platform) (pollId optionId token : JSString)
  (call : Async P JSValue) (request : Request) (h : Host P) :
  In (call, request) (client_calls P pollId optionId token) ->
  issued (snd (call h)) = issued h ++ [request].
Proof.
  intros Hin.
  destruct (network P request (world h)) as [[response | v] w] eqn:Hnet.
  - destruct (ok response) eqn:Hok.
    + rewrite (run_ok P pollId optionId token call request Hin h response w Hnet Hok).
      reflexivity.
    + destruct (json response) as [errorData | e] eqn:Hjson.
      * destruct (Get errorData (str "detail")) as [detail | e] eqn:Hget.
        -- destruct (ToBoolean detail) eqn:Htruthy.
           ++ rewrite (run_not_ok_detail P pollId optionId token call request Hin h
                         response w errorData detail Hnet Hok Hjson Hget Htruthy).
              reflexivity.
           ++ rewrite (run_not_ok_fallback P pollId optionId token call request Hin h
                         response w Hnet Hok); [reflexivity |].
              intros errorData' detail' E1 E2. congruence.
        -- rewrite (run_not_ok_fallback P pollId optionId token call request Hin h
                      response w Hnet Hok); [reflexivity |].
           intros errorData' detail' E1 E2. congruence.
      * rewrite (run_not_ok_fallback P pollId optionId token call request Hin h
                   response w Hnet Hok); [reflexivity |].
        intros errorData' detail' E1 E2. congruence.
  - destruct (instanceof_Error v) eqn:Hv.
    + rewrite (run_fetch_throws_Error P pollId optionId token call request Hin h v w Hnet Hv).
      reflexivity.
    + rewrite (run_fetch_throws_other P pollId optionId token call request Hin h v w Hnet Hv).
      reflexivity.
Qed.

(** A call that returns got a success response and returns its decoded
    body. *)
Lemma run_normal_inv (P : Platform) (pollId optionId token : JSString)
  (call : Async P JSValue) (request : Request) (h h' : Host P) (result : JSValue) :
  In (call, request) (client_calls P pollId optionId token) ->
  call h = (Normal result, h') ->
  exists response w,
    network P request (world h) = (Normal response, w) /\
    ok response = true /\
    json response = Normal result /\
    h' = after_fetch h request w.
Proof.
  intros Hin Hrun.
  destruct (network P request (world h)) as [[response | v] w] eqn:Hnet.
  - destruct (ok response) eqn:Hok.
    + rewrite (run_ok P pollId optionId token call request Hin h response w Hnet Hok)
        in Hrun.
      destruct (json response) as [payload | e] eqn:Hjson.
      * injection Hrun as -> <-. exists response, w. auto.
      * destruct (instanceof_Error e); [discriminate |].
        destruct (ToString e); discriminate.
    + exfalso.
      destruct (json response) as [errorData | e] eqn:Hjson.
      * destruct (Get errorData (str "detail")) as [detail | e] eqn:Hget.
        -- destruct (ToBoolean detail) eqn:Htruthy.
           ++ rewrite (run_not_ok_detail P pollId optionId token call request Hin h
                         response w errorData detail Hnet Hok Hjson Hget Htruthy)
                in Hrun.
              destruct (ToString detail); discriminate.
           ++ rewrite (run_not_ok_fallback P pollId optionId token call request Hin h
                         response w Hnet Hok) in Hrun; [discriminate |].
              intros errorData' detail' E1 E2. congruence.
        -- rewrite (run_not_ok_fallback P pollId optionId token call request Hin h
                      response w Hnet Hok) in Hrun; [discriminate |].
           intros errorData' detail' E1 E2. congruence.
      * rewrite (run_not_ok_fallback P pollId optionId token call request Hin h
                   response w Hnet Hok) in Hrun; [discriminate |].
        intros errorData' detail' E1 E2. congruence.
  - exfalso. destruct (instanceof_Error v) eqn:Hv.
    + rewrite (run_fetch_throws_Error P pollId optionId token call request Hin h v w Hnet Hv)
        in Hrun.
      discriminate.
    + rewrite (run_fetch_throws_other P pollId optionId token call request Hin h v w Hnet Hv)
        in Hrun.
      destruct (ToString v); discriminate.
Qed.

Lemma vote_calls_client (P : Platform) (pollId optionId token : JSString)
  (call : Async P JSValue) (request : Request) :
  In (call, request) (vote_calls P pollId optionId token) ->
  In (call, request) (client_calls P pollId optionId token) /\
  request = vote_request pollId (parseInt optionId 10) token.
Proof.
  intros Hin. split; [apply in_or_app; left; exact Hin |].
  destruct Hin as [E | [E | []]]; inversion E; reflexivity.
Qed.

Lemma results_calls_client (P : Platform) (pollId optionId token : JSString)
  (call : Async P JSValue) (request : Request) :
  In (call, request) (results_calls P pollId) ->
  In (call, request) (client_calls P pollId optionId token) /\
  request = results_request pollId.
Proof.
  intros Hin. split; [apply in_or_app; right; exact Hin |].
  destruct Hin as [E | [E | []]]; inversion E; reflexivity.
Qed.

Lemma vote_body (x : Number) :
  JSON_stringify (JObject [(str "option_id", JNumber x)]) =
    Some (str "{" ++ QuoteJSONString (str "option_id") ++ str ":" ++
          (if Number_isFinite x then Number_toString x else str "null") ++ str "}").
Proof.
  reflexivity.
Qed.


(** ** The claims *)

(** C1, where the code departs from the claim.  A [422] response whose
    [detail] is a list of findings (truthy, not a string) raises an error
    whose message is the string conversion of the list,
    ["[object Object]"]: neither the value of [detail] nor the fallback
    ["HTTP 422: Unprocessable Entity"]. *)
Lemma structured_detail_is_not_the_message :
  ok validation_response = false /\
  json validation_response = Normal (JObject [(str "detail", validation_detail)]) /\
  ToBoolean validation_detail = true /\
  fst (PollApi.submitVote (P := validating_service) (str "1") (str "abc") (str "token")
         (start (P := validating_service) tt)) =
    Throw (JError (str "Error") (str "[object Object]")) /\
  fst (PollApi.fetchPollResults (P := validating_service) (str "1")
         (start (P := validating_service) tt)) =
    Throw (JError (str "Error") (str "[object Object]")) /\
  JString (str "[object Object]") <> validation_detail /\
  fallback_message validation_response = str "HTTP 422: Unprocessable Entity" /\
  str "[object Object]" <> fallback_message validation_response.
Proof.
  repeat (split; [reflexivity |]).
  split; [discriminate |]. split; [reflexivity | discriminate].
Qed.

(** C2, where the code departs from the claim.  When the connection is
    refused [fetch] rejects with a [TypeError], an instance of [Error];
    all four functions throw that [TypeError] again as it is, so the
    message is ["Failed to fetch"], without the ["Network error: "]
    prefix. *)
Theorem refused_connection_is_not_prefixed :
  fst (PollApi.submitVote (P := refused_network) (str "1") (str "2") (str "token")
         (start (P := refused_network) tt)) =
    Throw (TypeError (str "Failed to fetch")) /\
  fst (SubmitVoteFile.submitVote (P := refused_network) (str "1") (str "2")
         (str "token") (start (P := refused_network) tt)) =
    Throw (TypeError (str "Failed to fetch")) /\
  fst (PollApi.fetchPollResults (P := refused_network) (str "1")
         (start (P := refused_network) tt)) =
    Throw (TypeError (str "Failed to fetch")) /\
  fst (FetchPollResultsFile.fetchPollResults (P := refused_network) (str "1")
         (start (P := refused_network) tt)) =
    Throw (TypeError (str "Failed to fetch")) /\
  firstn 15 (str "Failed to fetch") <> str "Network error: ".
Proof.
  repeat (split; [reflexivity |]). discriminate.
Qed.



(** C4.  Every call of [submitVote] hands exactly one request to [fetch]:
    a [POST] to [http://localhost:8000/polls/{pollId}/vote] with the
    headers [Content-Type: application/json] and
    [Authorization: Bearer {token}], whose body is
    [JSON.stringify({option_id: parseInt(optionId, 10)})].  When
    [parseInt] yields an integer the body carries it (in plain decimal
    digits when it is a safe integer); nothing is validated, and when
    [parseInt] yields [NaN] the body carries [null] in its place.
    (Code unit 34 is the quotation mark.) *)
Theorem submitVote_request :
  forall (P : Platform) (pollId optionId token : JSString) (h : Host P),
  exists sent : Request,
    issued (snd (PollApi.submitVote pollId optionId token h)) = issued h ++ [sent] /\
    issued (snd (SubmitVoteFile.submitVote pollId optionId token h)) =
      issued h ++ [sent] /\
    url sent = str "http://localhost:8000/polls/" ++ pollId ++ str "/vote" /\
    method sent = str "POST" /\
    headers sent = [(str "Content-Type", str "application/json");
                    (str "Authorization", str "Bearer " ++ token)] /\
    body sent =
      JSON_stringify (JObject [(str "option_id", JNumber (parseInt optionId 10))]) /\
    (forall n : Z,
        parseInt optionId 10 = Int n ->
        body sent =
          Some (str "{" ++ [34%N] ++ str "option_id" ++ [34%N] ++ str ":" ++
                Number_toString (Int n) ++ str "}")) /\
    (forall n : Z,
        parseInt optionId 10 = Int n ->
        safe_integer n = true ->
        body sent =
          Some (str "{" ++ [34%N] ++ str "option_id" ++ [34%N] ++ str ":" ++
                sign_prefix (n <? 0) ++ digits (Z.abs n) ++ str "}")) /\
    (parseInt optionId 10 = NaN ->
     body sent =
       Some (str "{" ++ [34%N] ++ str "option_id" ++ [34%N] ++ str ":null}")).
Proof.
  intros P pollId optionId token h.
  exists (vote_request pollId (parseInt optionId 10) token).
  assert (Hone : forall call,
             In (call, vote_request pollId (parseInt optionId 10) token)
               (vote_calls P pollId optionId token) ->
             issued (snd (call h)) =
               issued h ++ [vote_request pollId (parseInt optionId 10) token]).
  { intros call Hin.
    apply (run_issues_one P pollId optionId token), (vote_calls_client _ _ _ _ _ _ Hin). }
  split; [apply Hone; left; reflexivity |].
  split; [apply Hone; right; left; reflexivity |].
  repeat (split; [reflexivity |]).
  unfold vote_request, body. rewrite vote_body.
  split; [| split].
  - intros n ->. reflexivity.
  - intros n -> Hsafe. rewrite (Number_toString_safe n Hsafe).
    simpl Number_isFinite. cbv iota. rewrite <- app_assoc. reflexivity.
  - intros ->. reflexivity.
Qed.

Lemma submitVote_request_witness :
  parseInt (str "12abc") 10 = Int 12 /\
  safe_integer 12 = true /\
  (exists sent : Request,
      issued (snd (PollApi.submitVote (P := not_found_service)
                     (str "1") (str "12abc") (str "token")
                     (start (P := not_found_service) tt))) = [sent] /\
      body sent =
        Some (str "{" ++ [34%N] ++ str "option_id" ++ [34%N] ++ str ":12}")) /\
  parseInt (str "abc") 10 = NaN /\
  (exists sent : Request,
      issued (snd (SubmitVoteFile.submitVote (P := not_found_service)
                     (str "1") (str "abc") (str "token")
                     (start (P := not_found_service) tt))) = [sent] /\
      body sent =
        Some (str "{" ++ [34%N] ++ str "option_id" ++ [34%N] ++ str ":null}")).
Proof.
  split; [reflexivity |]. split; [reflexivity |].
  split; [| split; [reflexivity |]].
  - destruct (submitVote_request not_found_service (str "1") (str "12abc")
                (str "token") (start (P := not_found_service) tt))
      as (sent & Hissued & _ & _ & _ & _ & _ & _ & Hsafe & _).
    exists sent. split; [exact Hissued |].
    exact (Hsafe 12 eq_refl eq_refl).
  - destruct (submitVote_request not_found_service (str "1") (str "abc")
                (str "token") (start (P := not_found_service) tt))
      as (sent & _ & Hissued & _ & _ & _ & _ & _ & _ & Hnan).
    exists sent. split; [exact Hissued |].
    exact (Hnan eq_refl).
Defined.

(** C5.  A successful [fetchPollResults] returns the decoded body of the
    success response as it is: every call that returns got a success
    response and returns its decoded body, and a success response with
    decoded body [payload] makes the call return [payload], so that
    [poll_id], [question] and [results] (an array, in the order of the
    body) are those of the body. *)
Theorem fetchPollResults_returns_payload :
  forall (P : Platform) (pollId : JSString)
         (call : Async P JSValue) (request : Request) (h : Host P),
    In (call, request) (results_calls P pollId) ->
    (forall (result : JSValue) (h' : Host P),
        call h = (Normal result, h') ->
        exists response w,
          network P (results_request pollId) (world h) = (Normal response, w) /\
          ok response = true /\
          json response = Normal result) /\
    (forall (response : Response) (w : World P) (payload : JSValue),
        network P (results_request pollId) (world h) = (Normal response, w) ->
        ok response = true ->
        json response = Normal payload ->
        fst (call h) = Normal payload /\
        forall result,
          fst (call h) = Normal result ->
          Get result (str "poll_id") = Get payload (str "poll_id") /\
          Get result (str "question") = Get payload (str "question") /\
          Get result (str "results") = Get payload (str "results")).
Proof.
  intros P pollId call request h Hin.
  destruct (results_calls_client _ _ [] [] _ _ Hin) as [Hclient ->].
  split.
  - intros result h' Hrun.
    destruct (run_normal_inv _ _ _ _ _ _ _ _ _ Hclient Hrun)
      as (response & w & Hnet & Hok & Hjson & _).
    exists response, w. auto.
  - intros response w payload Hnet Hok Hjson.
    rewrite (run_ok P pollId [] [] call _ Hclient h response w Hnet Hok), Hjson.
    simpl. split; [reflexivity |].
    intros result [= <-]. auto.
Qed.

Lemma fetchPollResults_returns_payload_witness :
  fst (PollApi.fetchPollResults (P := poll_service) (str "1")
         (start (P := poll_service) 4)) = Normal (poll_results 4) /\
  Get (poll_results 4) (str "question") = Normal (JString (str "Tea or coffee?")).
Proof.
  split; [| reflexivity].
  apply (proj2 (fetchPollResults_returns_payload poll_service (str "1")
                  (PollApi.fetchPollResults (str "1")) (results_request (str "1"))
                  (start (P := poll_service) 4) (or_introl eq_refl))
           {| ok := true; status := 200; statusText := str "OK";
              json := Normal (poll_results 4) |} 4 (poll_results 4)
           eq_refl eq_refl eq_refl).
Defined.

(** C6.  Every call of [fetchPollResults] hands exactly one request to
    [fetch]: a [GET] to [http://localhost:8000/polls/{pollId}/results]
    whose only header is [Content-Type: application/json]; it has no body
    and no [Authorization] header. *)
Theorem fetchPollResults_request :
  forall (P : Platform) (pollId : JSString) (h : Host P),
  exists sent : Request,
    issued (snd (PollApi.fetchPollResults pollId h)) = issued h ++ [sent] /\
    issued (snd (FetchPollResultsFile.fetchPollResults pollId h)) =
      issued h ++ [sent] /\
    url sent = str "http://localhost:8000/polls/" ++ pollId ++ str "/results" /\
    method sent = str "GET" /\
    headers sent = [(str "Content-Type", str "application/json")] /\
    body sent = None /\
    (forall value : JSString, ~ In (str "Authorization", value) (headers sent)).
Proof.
  intros P pollId h.
  exists (results_request pollId).
  assert (Hone : forall call,
             In (call, results_request pollId) (results_calls P pollId) ->
             issued (snd (call h)) = issued h ++ [results_request pollId]).
  { intros call Hin.
    apply (run_issues_one P pollId [] []), (results_calls_client _ _ [] [] _ _ Hin). }
  split; [apply Hone; left; reflexivity |].
  split; [apply Hone; right; left; reflexivity |].
  repeat (split; [reflexivity |]).
  intros value [E | []]. discriminate E.
Qed.

(** C7.  Two calls of [fetchPollResults] in succession for the same poll,
    to which the network gives the same success response, complete the
    same way; when the body of that response decodes, both return the
    decoded body. *)
Theorem fetchPollResults_twice :
  forall (P : Platform) (pollId : JSString)
         (call : Async P JSValue) (request : Request)
         (w0 w1 w2 : World P) (response : Response),
    In (call, request) (results_calls P pollId) ->
    network P (results_request pollId) w0 = (Normal response, w1) ->
    network P (results_request pollId) w1 = (Normal response, w2) ->
    ok response = true ->
    let first := call (start w0) in
    let second := call (snd first) in
    fst first = fst second /\
    world (snd second) = w2 /\
    forall payload : JSValue,
      json response = Normal payload ->
      fst first = Normal payload /\ fst second = Normal payload.
Proof.
  intros P pollId call request w0 w1 w2 response Hin Hnet0 Hnet1 Hok first second.
  destruct (results_calls_client _ _ [] [] _ _ Hin) as [Hclient ->].
  assert (Hfirst : first = call (start w0)) by reflexivity.
  rewrite (run_ok P pollId [] [] call _ Hclient (start w0) response w1 Hnet0 Hok)
    in Hfirst.
  assert (Hsecond : second = call (snd first)) by reflexivity.
  rewrite Hfirst in Hsecond. simpl snd in Hsecond.
  rewrite (run_ok P pollId [] [] call _ Hclient
             (after_fetch (start w0) (results_request pollId) w1) response w2
             Hnet1 Hok) in Hsecond.
  rewrite Hfirst, Hsecond. simpl.
  repeat split; intros; subst; try reflexivity;
    match goal with H : json response = _ |- _ => rewrite H end; reflexivity.
Qed.

Lemma fetchPollResults_twice_witness :
  ok {| ok := true; status := 200; statusText := str "OK";
        json := Normal (poll_results 4) |} = true /\
  fst (PollApi.fetchPollResults (P := poll_service) (str "1")
         (start (P := poll_service) 4)) =
  fst (PollApi.fetchPollResults (P := poll_service) (str "1")
         (snd (PollApi.fetchPollResults (P := poll_service) (str "1")
                 (start (P := poll_service) 4)))).
Proof.
  split; [reflexivity |].
  exact (proj1 (fetchPollResults_twice poll_service (str "1")
                  (PollApi.fetchPollResults (str "1")) (results_request (str "1"))
                  4 4 4
                  {| ok := true; status := 200; statusText := str "OK";
                     json := Normal (poll_results 4) |}
                  (or_introl eq_refl) eq_refl eq_refl eq_refl)).
Defined.

(** C8.  The standalone [submitVote] of [src/submitVote.ts] and the
    standalone [fetchPollResults] of [src/fetchPollResults.ts] behave as
    the functions of the same names in [src/lib/poll-api.ts]: on every
    platform, for all arguments and from every host state, they complete
    the same way and leave the same host state. *)
Theorem standalone_equals_combined :
  forall (P : Platform) (pollId optionId token : JSString) (h : Host P),
    SubmitVoteFile.submitVote pollId optionId token h =
      PollApi.submitVote pollId optionId token h /\
    FetchPollResultsFile.fetchPollResults pollId h =
      PollApi.fetchPollResults pollId h.
Proof.
  intros P pollId optionId token h. split.
  - unfold SubmitVoteFile.submitVote, PollApi.submitVote. reflexivity.
  - unfold FetchPollResultsFile.fetchPollResults, PollApi.fetchPollResults.
    reflexivity.
Qed.

(** C9.  In the four functions the outer catch throws again, unchanged,
    every instance of [Error] thrown inside the try block: one thrown by
    [fetch], one thrown while the body of a success response is decoded,
    and the one the non-success branch creates with [new Error] (or the
    [TypeError] that creation throws).  The ["Network error: "] wrapping
    is what happens to the thrown values that are not instances of
    [Error]. *)
Theorem catch_rethrows_Error_instances :
  forall (P : Platform) (pollId optionId token : JSString)
         (call : Async P JSValue) (request : Request) (h : Host P),
    In (call, request) (client_calls P pollId optionId token) ->
    (forall (e : JSValue) (w : World P),
        network P request (world h) = (Throw e, w) ->
        instanceof_Error e = true ->
        fst (call h) = Throw e) /\
    (forall (response : Response) (w : World P) (e : JSValue),
        network P request (world h) = (Normal response, w) ->
        ok response = true ->
        json response = Throw e ->
        instanceof_Error e = true ->
        fst (call h) = Throw e) /\
    (forall (response : Response) (w : World P),
        network P request (world h) = (Normal response, w) ->
        ok response = false ->
        exists errorMessage e : JSValue,
          (new_Error errorMessage = Normal e \/ new_Error errorMessage = Throw e) /\
          instanceof_Error e = true /\
          fst (call h) = Throw e) /\
    (forall (v : JSValue) (w : World P) (description : JSString),
        network P request (world h) = (Throw v, w) ->
        instanceof_Error v = false ->
        ToString v = Normal description ->
        fst (call h) =
          Throw (JError (str "Error") (str "Network error: " ++ description))) /\
    (forall (response : Response) (w : World P) (v : JSValue)
            (description : JSString),
        network P request (world h) = (Normal response, w) ->
        ok response = true ->
        json response = Throw v ->
        instanceof_Error v = false ->
        ToString v = Normal description ->
        fst (call h) =
          Throw (JError (str "Error") (str "Network error: " ++ description))).
Proof.
  intros P pollId optionId token call request h Hin.
  split; [| split; [| split; [| split]]].
  - intros e w Hnet He.
    rewrite (run_fetch_throws_Error P pollId optionId token call request Hin h e w
               Hnet He).
    reflexivity.
  - intros response w e Hnet Hok Hjson He.
    rewrite (run_ok P pollId optionId token call request Hin h response w Hnet Hok),
      Hjson, He.
    reflexivity.
  - intros response w Hnet Hok.
    destruct (json response) as [errorData | e0] eqn:Hjson.
    + destruct (Get errorData (str "detail")) as [detail | e0] eqn:Hget.
      * destruct (ToBoolean detail) eqn:Htruthy.
        -- rewrite (run_not_ok_detail P pollId optionId token call request Hin h
                      response w errorData detail Hnet Hok Hjson Hget Htruthy).
           exists detail. rewrite (new_Error_truthy detail Htruthy).
           destruct (ToString detail) as [s | t] eqn:Hs.
           ++ exists (JError (str "Error") s). auto.
           ++ exists t. pose proof (ToString_throws_Error detail t Hs). auto.
        -- rewrite (run_not_ok_fallback P pollId optionId token call request Hin h
                      response w Hnet Hok).
           ++ exists (JString (fallback_message response)),
                (JError (str "Error") (fallback_message response)). auto.
           ++ intros errorData' detail' E1 E2. congruence.
      * rewrite (run_not_ok_fallback P pollId optionId token call request Hin h
                   response w Hnet Hok).
        -- exists (JString (fallback_message response)),
             (JError (str "Error") (fallback_message response)). auto.
        -- intros errorData' detail' E1 E2. congruence.
    + rewrite (run_not_ok_fallback P pollId optionId token call request Hin h
                 response w Hnet Hok).
      * exists (JString (fallback_message response)),
          (JError (str "Error") (fallback_message response)). auto.
      * intros errorData' detail' E1 E2. congruence.
  - intros v w description Hnet Hv Hs.
    rewrite (run_fetch_throws_other P pollId optionId token call request Hin h v w
               Hnet Hv), Hs.
    reflexivity.
  - intros response w v description Hnet Hok Hjson Hv Hs.
    rewrite (run_ok P pollId optionId token call request Hin h response w Hnet Hok),
      Hjson, Hv, Hs.
    reflexivity.
Qed.

Lemma catch_rethrows_Error_instances_witness :
  instanceof_Error (TypeError (str "Failed to fetch")) = true /\
  fst (PollApi.submitVote (P := refused_network) (str "1") (str "2") (str "token")
         (start (P := refused_network) tt)) =
    Throw (TypeError (str "Failed to fetch")) /\
  instanceof_Error (JString (str "connection refused")) = false /\
  fst (PollApi.fetchPollResults (P := rejecting_network) (str "1")
         (start (P := rejecting_network) tt)) =
    Throw (JError (str "Error") (str "Network error: connection refused")).
Proof.
  split; [reflexivity |]. split; [| split; [reflexivity |]].
  - destruct (catch_rethrows_Error_instances refused_network
                (str "1") (str "2") (str "token")
                (PollApi.submitVote (str "1") (str "2") (str "token"))
                (vote_request (str "1") (parseInt (str "2") 10) (str "token"))
                (start (P := refused_network) tt) (or_introl eq_refl))
      as (Hfetch & _).
    exact (Hfetch (TypeError (str "Failed to fetch")) tt eq_refl eq_refl).
  - destruct (catch_rethrows_Error_instances rejecting_network
                (str "1") (str "2") (str "token")
                (PollApi.fetchPollResults (str "1")) (results_request (str "1"))
                (start (P := rejecting_network) tt)
                (or_intror (or_intror (or_introl eq_refl))))
      as (_ & _ & _ & Hother & _).
    exact (Hother (JString (str "connection refused")) tt
             (str "connection refused") eq_refl eq_refl eq_refl).
Defined.

(** C10, as stated, fails: for ["9007199254740993abc"] the leading digit
    prefix has the integer value [9007199254740993], and [submitVote]
    sends [option_id] [9007199254740992], the nearest Number.  The value
    is rounded, not cut: for ["18014398509481987abc"] the [option_id] sent
    is [18014398509481988], above the value of the prefix. *)
Lemma digit_prefix_value_is_rounded :
  digit_prefix 10 (str "9007199254740993abc") = str "9007199254740993" /\
  radix_value 10 (str "9007199254740993") = 9007199254740993 /\
  parseInt (str "9007199254740993abc") 10 = Int 9007199254740992 /\
  issued (snd (PollApi.submitVote (P := validating_service) (str "1")
                 (str "9007199254740993abc") (str "token")
                 (start (P := validating_service) tt))) =
    [vote_request (str "1") (Int 9007199254740992) (str "token")] /\
  body (vote_request (str "1") (Int 9007199254740992) (str "token")) =
    Some (str "{" ++ [34%N] ++ str "option_id" ++ [34%N] ++ str ":9007199254740992}") /\
  Int 9007199254740992 <> Int 9007199254740993 /\
  radix_value 10 (digit_prefix 10 (str "18014398509481987abc")) = 18014398509481987 /\
  issued (snd (PollApi.submitVote (P := validating_service) (str "1")
                 (str "18014398509481987abc") (str "token")
                 (start (P := validating_service) tt))) =
    [vote_request (str "1") (Int 18014398509481988) (str "token")] /\
  body (vote_request (str "1") (Int 18014398509481988) (str "token")) =
    Some (str "{" ++ [34%N] ++ str "option_id" ++ [34%N] ++ str ":18014398509481988}").
Proof.
  split; [vm_compute; reflexivity |].
  split; [vm_compute; reflexivity |].
  split; [vm_compute; reflexivity |].
  split; [vm_compute; reflexivity |].
  split; [vm_compute; reflexivity |].
  split; [discriminate |].
  split; [vm_compute; reflexivity |].
  split; vm_compute; reflexivity.
Qed.

(** C10, amended.  For an option identifier made of optional white space,
    an optional sign, a run of decimal digits and any rest that does not
    start with a digit, [parseInt] stops at the rest instead of rejecting
    the input, and [submitVote] hands its one request to [fetch] whatever
    the rest is.  With [value] the integer value of the digit run, negated
    after a minus sign, the [option_id] in the body of that request is
    - [0] when [value] is zero (also after a minus sign, where [parseInt]
      gives the negative zero);
    - [value] itself, in decimal digits, when its magnitude is below
      [2^53];
    - otherwise the text of the Number [parseInt] gives, which is a
      nearest one (no integer-valued Number is nearer to [value]), or
      [null] when [parseInt] gives an infinity, which happens only beyond
      the largest finite Number [(2^53 - 1) * 2^971]. *)
Theorem digit_prefix_is_sent :
  forall (P : Platform) (pollId token ws sign ds rest : JSString) (h : Host P),
    Forall (fun c => isWhiteSpace c = true) ws ->
    sign = [] \/ sign = str "+" \/ sign = str "-" ->
    ds <> [] ->
    Forall (fun c => isDecimalDigit c = true) ds ->
    match rest with [] => True | c :: _ => isDecimalDigit c = false end ->
    let optionId := ws ++ sign ++ ds ++ rest in
    let negative := string_eqb sign (str "-") in
    let value := if negative then - radix_value 10 ds else radix_value 10 ds in
    exists sent : Request,
      issued (snd (PollApi.submitVote pollId optionId token h)) = issued h ++ [sent] /\
      issued (snd (SubmitVoteFile.submitVote pollId optionId token h)) =
        issued h ++ [sent] /\
      body sent =
        JSON_stringify (JObject [(str "option_id", JNumber (parseInt optionId 10))]) /\
      (value = 0 ->
       parseInt optionId 10 = (if negative then NegZero else Int 0) /\
       body sent =
         Some (str "{" ++ [34%N] ++ str "option_id" ++ [34%N] ++ str ":0}")) /\
      (value <> 0 ->
       Z.abs value < 2 ^ 53 ->
       parseInt optionId 10 = Int value /\
       body sent =
         Some (str "{" ++ [34%N] ++ str "option_id" ++ [34%N] ++ str ":" ++
               sign_prefix (value <? 0) ++ digits (Z.abs value) ++ str "}")) /\
      (value <> 0 ->
       (exists n : Z,
           parseInt optionId 10 = Int n /\
           NumberOfInteger n = Int n /\
           (forall d : Z,
               NumberOfInteger d = Int d -> Z.abs (value - n) <= Z.abs (value - d)) /\
           body sent =
             Some (str "{" ++ [34%N] ++ str "option_id" ++ [34%N] ++ str ":" ++
                   Number_toString (Int n) ++ str "}")) \/
       (parseInt optionId 10 = Infinity (value <? 0) /\
        (2 ^ 53 - 1) * 2 ^ 971 < Z.abs value /\
        body sent =
          Some (str "{" ++ [34%N] ++ str "option_id" ++ [34%N] ++ str ":null}"))).
Proof.
  intros P pollId token ws sign ds rest h Hws Hsign Hne Hds Hrest
    optionId negative value.
  pose proof (parseInt_signed_digits ws sign ds rest Hws Hsign Hne Hds Hrest) as Hparse.
  fold optionId in Hparse. cbv zeta in Hparse. fold negative in Hparse.
  assert (Hzero : (radix_value 10 ds =? 0) = (value =? 0)).
  { unfold value. destruct negative; [| reflexivity].
    destruct (Z.eqb_spec (radix_value 10 ds) 0), (Z.eqb_spec (- radix_value 10 ds) 0);
      (reflexivity || lia). }
  rewrite Hzero in Hparse. fold value in Hparse.
  assert (Hone : forall call,
             In (call, vote_request pollId (parseInt optionId 10) token)
               (vote_calls P pollId optionId token) ->
             issued (snd (call h)) =
               issued h ++ [vote_request pollId (parseInt optionId 10) token]).
  { intros call Hin.
    apply (run_issues_one P pollId optionId token), (vote_calls_client _ _ _ _ _ _ Hin). }
  exists (vote_request pollId (parseInt optionId 10) token).
  split; [apply Hone; left; reflexivity |].
  split; [apply Hone; right; left; reflexivity |].
  split; [reflexivity |].
  unfold vote_request, body. rewrite vote_body.
  split; [| split].
  - intros Hz. rewrite Hparse, Hz. simpl Z.eqb. cbv iota.
    split; [reflexivity |]. destruct negative; reflexivity.
  - intros Hnz Hsafe.
    assert (Hexact : parseInt optionId 10 = Int value).
    { rewrite Hparse. destruct (Z.eqb_spec value 0); [contradiction |].
      apply NumberOfInteger_safe; assumption. }
    split; [exact Hexact |].
    rewrite Hexact. simpl Number_isFinite. cbv iota.
    rewrite Number_toString_safe by (apply Z.ltb_lt; exact Hsafe).
    rewrite <- app_assoc. reflexivity.
  - intros Hnz.
    assert (Hround : parseInt optionId 10 = NumberOfInteger value).
    { rewrite Hparse. destruct (Z.eqb_spec value 0); [contradiction | reflexivity]. }
    destruct (NumberOfInteger_cases value) as [[n Hn] | [Hinf Hbeyond]].
    + left. exists n. rewrite Hround, Hn.
      split; [reflexivity |].
      split; [exact (NumberOfInteger_idempotent value n Hn) |].
      split; [| reflexivity].
      intros d Hd. exact (NumberOfInteger_nearest value n d Hn Hd).
    + right. rewrite Hround, Hinf. auto.
Qed.

Lemma digit_prefix_is_sent_witness :
  Forall (fun c => isWhiteSpace c = true) (str "  ") /\
  Forall (fun c => isDecimalDigit c = true) (str "12") /\
  - radix_value 10 (str "12") = -12 /\
  parseInt (str "  -12abc") 10 = Int (-12) /\
  exists sent : Request,
    issued (snd (PollApi.submitVote (P := not_found_service) (str "1")
                   (str "  -12abc") (str "token")
                   (start (P := not_found_service) tt))) = [sent] /\
    body sent =
      Some (str "{" ++ [34%N] ++ str "option_id" ++ [34%N] ++ str ":-12}").
Proof.
  assert (Hws : Forall (fun c => isWhiteSpace c = true) (str "  ")).
  { repeat constructor. }
  assert (Hds : Forall (fun c => isDecimalDigit c = true) (str "12")).
  { repeat constructor. }
  split; [exact Hws |]. split; [exact Hds |]. split; [reflexivity |].
  destruct (digit_prefix_is_sent not_found_service (str "1") (str "token")
              (str "  ") (str "-") (str "12") (str "abc")
              (start (P := not_found_service) tt)
              Hws (or_intror (or_intror eq_refl))
              (fun E => eq_ind (str "12") (fun l => match l with [] => False | _ => True end)
                          I [] E)
              Hds eq_refl)
    as (sent & Hissued & _ & _ & _ & Hsafe & _).
  assert (Hnz : - radix_value 10 (str "12") <> 0) by discriminate.
  assert (Hlt : Z.abs (- radix_value 10 (str "12")) < 2 ^ 53) by reflexivity.
  destruct (Hsafe Hnz Hlt) as [Hexact Hbody].
  split; [exact Hexact |].
  exists sent. split; [exact Hissued | exact Hbody].
Defined.

(** ** Further properties of the two functions *)

(** The host state a call leaves: the world the network leaves, and one
    more request in the log, however the call completes. *)
Lemma run_host (P : Platform) (pollId optionId token : JSString)
  (call : Async P JSValue) (request : Request) (h : Host P) :
  In (call, request) (client_calls P pollId optionId token) ->
  snd (call h) = after_fetch h request (snd (network P request (world h))).
Proof.
  intros Hin.
  destruct (network P request (world h)) as [[response | v] w] eqn:Hnet.
  - destruct (ok response) eqn:Hok.
    + rewrite (run_ok P pollId optionId token call request Hin h response w Hnet Hok).
      reflexivity.
    + destruct (json response) as [errorData | e] eqn:Hjson.
      * destruct (Get errorData (str "detail")) as [detail | e] eqn:Hget.
        -- destruct (ToBoolean detail) eqn:Htruthy.
           ++ rewrite (run_not_ok_detail P pollId optionId token call request Hin h
                         response w errorData detail Hnet Hok Hjson Hget Htruthy).
              reflexivity.
           ++ rewrite (run_not_ok_fallback P pollId optionId token call request Hin h
                         response w Hnet Hok); [reflexivity |].
              intros errorData' detail' E1 E2. congruence.
        -- rewrite (run_not_ok_fallback P pollId optionId token call request Hin h
                      response w Hnet Hok); [reflexivity |].
           intros errorData' detail' E1 E2. congruence.
      * rewrite (run_not_ok_fallback P pollId optionId token call request Hin h
                   response w Hnet Hok); [reflexivity |].
        intros errorData' detail' E1 E2. congruence.
  - destruct (instanceof_Error v) eqn:Hv.
    + rewrite (run_fetch_throws_Error P pollId optionId token call request Hin h v w Hnet Hv).
      reflexivity.
    + rewrite (run_fetch_throws_other P pollId optionId token call request Hin h v w Hnet Hv).
      reflexivity.
Qed.

(** X1.  Whatever one of the four functions throws is an instance of
    [Error]: the [Error] of a non-success response, an [Error] thrown by
    [fetch] or by the decoding of the body, the ["Network error: "]
    wrapper of any other thrown value, or the [TypeError] of a failed
    string conversion. *)
Theorem thrown_values_are_Errors :
  forall (P : Platform) (pollId optionId token : JSString)
         (call : Async P JSValue) (request : Request)
         (h h' : Host P) (e : JSValue),
    In (call, request) (client_calls P pollId optionId token) ->
    call h = (Throw e, h') ->
    instanceof_Error e = true.
Proof.
  intros P pollId optionId token call request h h' e Hin Hrun.
  assert (Hwrap : forall v,
             match ToString v with
             | Normal s => Throw (JError (str "Error") (str "Network error: " ++ s))
             | Throw t => Throw t
             end = @Throw JSValue e ->
             instanceof_Error e = true).
  { intros v. destruct (ToString v) as [s | t] eqn:Hs; intros [= <-];
      [reflexivity | exact (ToString_throws_Error v t Hs)]. }
  assert (Hfallback : forall (response : Response) (w : World P),
             (Throw (JError (str "Error") (fallback_message response)),
              after_fetch h request w) = (@Throw JSValue e, h') ->
             instanceof_Error e = true).
  { intros response w [= <- _]. reflexivity. }
  destruct (network P request (world h)) as [[response | v] w] eqn:Hnet.
  - destruct (ok response) eqn:Hok.
    + rewrite (run_ok P pollId optionId token call request Hin h response w Hnet Hok)
        in Hrun.
      destruct (json response) as [payload | v]; [discriminate |].
      destruct (instanceof_Error v) eqn:Hv.
      * injection Hrun as <- _. exact Hv.
      * injection Hrun as Hrun _. exact (Hwrap v Hrun).
    + destruct (json response) as [errorData | e0] eqn:Hjson.
      * destruct (Get errorData (str "detail")) as [detail | e0] eqn:Hget.
        -- destruct (ToBoolean detail) eqn:Htruthy.
           ++ rewrite (run_not_ok_detail P pollId optionId token call request Hin h
                         response w errorData detail Hnet Hok Hjson Hget Htruthy)
                in Hrun.
              destruct (ToString detail) as [s | t] eqn:Hs;
                injection Hrun as <- _;
                [reflexivity | exact (ToString_throws_Error detail t Hs)].
           ++ rewrite (run_not_ok_fallback P pollId optionId token call request Hin h
                         response w Hnet Hok) in Hrun; [exact (Hfallback _ _ Hrun) |].
              intros errorData' detail' E1 E2. congruence.
        -- rewrite (run_not_ok_fallback P pollId optionId token call request Hin h
                      response w Hnet Hok) in Hrun; [exact (Hfallback _ _ Hrun) |].
           intros errorData' detail' E1 E2. congruence.
      * rewrite (run_not_ok_fallback P pollId optionId token call request Hin h
                   response w Hnet Hok) in Hrun; [exact (Hfallback _ _ Hrun) |].
        intros errorData' detail' E1 E2. congruence.
  - destruct (instanceof_Error v) eqn:Hv.
    + rewrite (run_fetch_throws_Error P pollId optionId token call request Hin h v w Hnet Hv)
        in Hrun.
      injection Hrun as <- _. exact Hv.
    + rewrite (run_fetch_throws_other P pollId optionId token call request Hin h v w Hnet Hv)
        in Hrun.
      injection Hrun as Hrun _. exact (Hwrap v Hrun).
Qed.

Lemma thrown_values_are_Errors_witness :
  PollApi.fetchPollResults (P := rejecting_network) (str "1")
    (start (P := rejecting_network) tt) =
    (Throw (JError (str "Error") (str "Network error: connection refused")),
     after_fetch (start (P := rejecting_network) tt) (results_request (str "1")) tt) /\
  instanceof_Error
    (JError (str "Error") (str "Network error: connection refused")) = true.
Proof.
  split; [reflexivity |].
  apply (thrown_values_are_Errors rejecting_network (str "1") (str "2") (str "token")
           (PollApi.fetchPollResults (str "1")) (results_request (str "1"))
           (start (P := rejecting_network) tt)
           (after_fetch (start (P := rejecting_network) tt)
              (results_request (str "1")) tt)).
  - right. right. left. reflexivity.
  - reflexivity.
Defined.

(** X2.  [submitVote] does not check the body of a success response: it
    returns exactly when the response is a success whose body decodes,
    and what it returns is the decoded body, whatever it is (the JSON
    [null] as well as a VoteRecord). *)
Theorem submitVote_returns_any_body :
  forall (P : Platform) (pollId optionId token : JSString)
         (call : Async P JSValue) (request : Request) (h : Host P),
    In (call, request) (vote_calls P pollId optionId token) ->
    (forall (result : JSValue) (h' : Host P),
        call h = (Normal result, h') ->
        exists response w,
          network P (vote_request pollId (parseInt optionId 10) token) (world h) =
            (Normal response, w) /\
          ok response = true /\
          json response = Normal result) /\
    (forall (response : Response) (w : World P) (payload : JSValue),
        network P (vote_request pollId (parseInt optionId 10) token) (world h) =
          (Normal response, w) ->
        ok response = true ->
        json response = Normal payload ->
        fst (call h) = Normal payload).
Proof.
  intros P pollId optionId token call request h Hin.
  destruct (vote_calls_client _ _ _ _ _ _ Hin) as [Hclient ->].
  split.
  - intros result h' Hrun.
    destruct (run_normal_inv _ _ _ _ _ _ _ _ _ Hclient Hrun)
      as (response & w & Hnet & Hok & Hjson & _).
    exists response, w. auto.
  - intros response w payload Hnet Hok Hjson.
    rewrite (run_ok P pollId optionId token call _ Hclient h response w Hnet Hok), Hjson.
    reflexivity.
Qed.

Lemma submitVote_returns_any_body_witness :
  fst (SubmitVoteFile.submitVote (P := null_body_service) (str "1") (str "2")
         (str "token") (start (P := null_body_service) tt)) = Normal JNull.
Proof.
  exact (proj2 (submitVote_returns_any_body null_body_service
                  (str "1") (str "2") (str "token")
                  (SubmitVoteFile.submitVote (str "1") (str "2") (str "token"))
                  (vote_request (str "1") (parseInt (str "2") 10) (str "token"))
                  (start (P := null_body_service) tt)
                  (or_intror (or_introl eq_refl)))
           {| ok := true; status := 200; statusText := str "OK";
              json := Normal JNull |} tt JNull eq_refl eq_refl eq_refl).
Defined.

(** X3.  Nothing is kept, retried or suppressed between calls: two calls
    in succession, of either function and with any arguments, hand two
    requests to [fetch] in call order, the second in the world the first
    left, and the second completes as it would from that world alone,
    whether or not the first call threw.  Two calls of [submitVote] with
    the same arguments send the same request twice. *)
Theorem two_calls_two_requests :
  forall (P : Platform)
         (pollId1 optionId1 token1 pollId2 optionId2 token2 : JSString)
         (call1 call2 : Async P JSValue) (request1 request2 : Request)
         (h : Host P),
    In (call1, request1) (client_calls P pollId1 optionId1 token1) ->
    In (call2, request2) (client_calls P pollId2 optionId2 token2) ->
    let w1 := snd (network P request1 (world h)) in
    let w2 := snd (network P request2 w1) in
    let after := snd (call2 (snd (call1 h))) in
    issued after = issued h ++ [request1; request2] /\
    world after = w2 /\
    fst (call2 (snd (call1 h))) = fst (call2 {| world := w1; issued := [] |}).
Proof.
  intros P pollId1 optionId1 token1 pollId2 optionId2 token2
    call1 call2 request1 request2 h Hin1 Hin2 w1 w2 after.
  unfold after.
  rewrite (run_host P pollId1 optionId1 token1 call1 request1 h Hin1).
  rewrite (run_host P pollId2 optionId2 token2 call2 request2 _ Hin2).
  fold w1. simpl. fold w2.
  split; [rewrite <- app_assoc; reflexivity |].
  split; [reflexivity |].
  clear after w2.
  set (h1 := after_fetch h request1 w1).
  set (h0 := {| world := w1; issued := [] |}).
  assert (Hworld : world h1 = world h0) by reflexivity.
  destruct (network P request2 (world h1)) as [[response | v] w] eqn:Hnet.
  - assert (Hnet0 : network P request2 (world h0) = (Normal response, w))
      by (rewrite <- Hworld; exact Hnet).
    destruct (ok response) eqn:Hok.
    + rewrite (run_ok P _ _ _ call2 request2 Hin2 h1 response w Hnet Hok),
        (run_ok P _ _ _ call2 request2 Hin2 h0 response w Hnet0 Hok).
      reflexivity.
    + destruct (json response) as [errorData | e] eqn:Hjson.
      * destruct (Get errorData (str "detail")) as [detail | e] eqn:Hget.
        -- destruct (ToBoolean detail) eqn:Htruthy.
           ++ rewrite (run_not_ok_detail P _ _ _ call2 request2 Hin2 h1
                         response w errorData detail Hnet Hok Hjson Hget Htruthy),
                (run_not_ok_detail P _ _ _ call2 request2 Hin2 h0
                   response w errorData detail Hnet0 Hok Hjson Hget Htruthy).
              reflexivity.
           ++ rewrite (run_not_ok_fallback P _ _ _ call2 request2 Hin2
                         h1 response w Hnet Hok),
                (run_not_ok_fallback P _ _ _ call2 request2 Hin2
                   h0 response w Hnet0 Hok);
                [reflexivity | |]; intros errorData' detail' E1 E2; congruence.
        -- rewrite (run_not_ok_fallback P _ _ _ call2 request2 Hin2
                      h1 response w Hnet Hok),
             (run_not_ok_fallback P _ _ _ call2 request2 Hin2
                h0 response w Hnet0 Hok);
             [reflexivity | |]; intros errorData' detail' E1 E2; congruence.
      * rewrite (run_not_ok_fallback P _ _ _ call2 request2 Hin2
                   h1 response w Hnet Hok),
          (run_not_ok_fallback P _ _ _ call2 request2 Hin2
             h0 response w Hnet0 Hok);
          [reflexivity | |]; intros errorData' detail' E1 E2; congruence.
  - assert (Hnet0 : network P request2 (world h0) = (Throw v, w))
      by (rewrite <- Hworld; exact Hnet).
    destruct (instanceof_Error v) eqn:Hv.
    + rewrite (run_fetch_throws_Error P _ _ _ call2 request2 Hin2 h1 v w Hnet Hv),
        (run_fetch_throws_Error P _ _ _ call2 request2 Hin2 h0 v w Hnet0 Hv).
      reflexivity.
    + rewrite (run_fetch_throws_other P _ _ _ call2 request2 Hin2 h1 v w Hnet Hv),
        (run_fetch_throws_other P _ _ _ call2 request2 Hin2 h0 v w Hnet0 Hv).
      reflexivity.
Qed.

Lemma two_calls_two_requests_witness :
  issued (snd (PollApi.fetchPollResults (P := poll_service) (str "1")
                 (snd (PollApi.submitVote (P := poll_service) (str "1") (str "2")
                         (str "token") (start (P := poll_service) 4))))) =
    [vote_request (str "1") (Int 2) (str "token"); results_request (str "1")] /\
  fst (PollApi.fetchPollResults (P := poll_service) (str "1")
         (snd (PollApi.submitVote (P := poll_service) (str "1") (str "2")
                 (str "token") (start (P := poll_service) 4)))) =
    Normal (poll_results 5) /\
  issued (snd (PollApi.submitVote (P := poll_service) (str "1") (str "2") (str "token")
                 (snd (PollApi.submitVote (P := poll_service) (str "1") (str "2")
                         (str "token") (start (P := poll_service) 4))))) =
    [vote_request (str "1") (Int 2) (str "token");
     vote_request (str "1") (Int 2) (str "token")] /\
  world (snd (PollApi.submitVote (P := poll_service) (str "1") (str "2") (str "token")
                (snd (PollApi.submitVote (P := poll_service) (str "1") (str "2")
                        (str "token") (start (P := poll_service) 4))))) = 6.
Proof.
  destruct (two_calls_two_requests poll_service
              (str "1") (str "2") (str "token") (str "1") [] []
              (PollApi.submitVote (str "1") (str "2") (str "token"))
              (PollApi.fetchPollResults (str "1"))
              (vote_request (str "1") (parseInt (str "2") 10) (str "token"))
              (results_request (str "1"))
              (start (P := poll_service) 4)
              (or_introl eq_refl) (or_intror (or_intror (or_introl eq_refl))))
    as (Hissued1 & _ & Hfst1).
  destruct (two_calls_two_requests poll_service
              (str "1") (str "2") (str "token") (str "1") (str "2") (str "token")
              (PollApi.submitVote (str "1") (str "2") (str "token"))
              (PollApi.submitVote (str "1") (str "2") (str "token"))
              (vote_request (str "1") (parseInt (str "2") 10) (str "token"))
              (vote_request (str "1") (parseInt (str "2") 10) (str "token"))
              (start (P := poll_service) 4)
              (or_introl eq_refl) (or_introl eq_refl))
    as (Hissued2 & Hworld2 & _).
  split; [exact Hissued1 |]. split; [exact Hfst1 |].
  split; [exact Hissued2 | exact Hworld2].
Defined.

(** X4.  An option identifier with no digit where the number should start
    (the empty string, white space only, a bare sign, text) is not
    rejected: [parseInt] gives [NaN] and [submitVote] sends its request
    with the body [{"option_id":null}]. *)
Theorem no_digits_sends_null :
  forall (P : Platform) (pollId token ws sign rest : JSString) (h : Host P),
    Forall (fun c => isWhiteSpace c = true) ws ->
    sign = [] \/ sign = str "+" \/ sign = str "-" ->
    match rest with
    | [] => True
    | c :: _ =>
        isDecimalDigit c = false /\
        (sign = [] ->
         isWhiteSpace c = false /\ unit_eqb c 43 || unit_eqb c 45 = false)
    end ->
    let optionId := ws ++ sign ++ rest in
    parseInt optionId 10 = NaN /\
    exists sent : Request,
      issued (snd (PollApi.submitVote pollId optionId token h)) = issued h ++ [sent] /\
      issued (snd (SubmitVoteFile.submitVote pollId optionId token h)) =
        issued h ++ [sent] /\
      body sent =
        Some (str "{" ++ [34%N] ++ str "option_id" ++ [34%N] ++ str ":null}").
Proof.
  intros P pollId token ws sign rest h Hws Hsign Hrest optionId.
  assert (Hprefix : digit_prefix 10 rest = []).
  { destruct rest as [| c rest']; [reflexivity |].
    simpl. rewrite isRadixDigit_10. destruct Hrest as [-> _]. reflexivity. }
  assert (Hnan : parseInt optionId 10 = NaN).
  { unfold optionId. rewrite parseInt_10, TrimStart_spaces by assumption.
    destruct Hsign as [-> | [-> | ->]].
    - simpl app. destruct rest as [| c rest']; [reflexivity |].
      destruct Hrest as [_ Hrest]. destruct (Hrest eq_refl) as [Hspace Hsigns].
      simpl TrimStart. rewrite Hspace. cbv beta iota zeta.
      rewrite Hsigns, Hprefix. reflexivity.
    - change (str "+" ++ rest) with (43%N :: rest).
      simpl TrimStart. cbv beta iota zeta. simpl orb. cbv beta iota.
      rewrite Hprefix. reflexivity.
    - change (str "-" ++ rest) with (45%N :: rest).
      simpl TrimStart. cbv beta iota zeta. simpl orb. cbv beta iota.
      rewrite Hprefix. reflexivity. }
  split; [exact Hnan |].
  exists (vote_request pollId (parseInt optionId 10) token).
  assert (Hone : forall call,
             In (call, vote_request pollId (parseInt optionId 10) token)
               (vote_calls P pollId optionId token) ->
             issued (snd (call h)) =
               issued h ++ [vote_request pollId (parseInt optionId 10) token]).
  { intros call Hin.
    apply (run_issues_one P pollId optionId token), (vote_calls_client _ _ _ _ _ _ Hin). }
  split; [apply Hone; left; reflexivity |].
  split; [apply Hone; right; left; reflexivity |].
  unfold vote_request, body. rewrite vote_body, Hnan. reflexivity.
Qed.

Lemma no_digits_sends_null_witness :
  parseInt [] 10 = NaN /\
  parseInt (str " -abc") 10 = NaN /\
  exists sent : Request,
    issued (snd (PollApi.submitVote (P := validating_service) (str "1") []
                   (str "token") (start (P := validating_service) tt))) = [sent] /\
    body sent =
      Some (str "{" ++ [34%N] ++ str "option_id" ++ [34%N] ++ str ":null}").
Proof.
  split.
  - exact (proj1 (no_digits_sends_null validating_service (str "1") (str "token")
                    [] [] [] (start (P := validating_service) tt)
                    (Forall_nil _) (or_introl eq_refl) I)).
  - split.
    + refine (proj1 (no_digits_sends_null validating_service (str "1") (str "token")
                       (str " ") (str "-") (str "abc")
                       (start (P := validating_service) tt)
                       _ (or_intror (or_intror eq_refl)) _)).
      * repeat constructor.
      * split; [reflexivity | discriminate].
    + destruct (no_digits_sends_null validating_service (str "1") (str "token")
                  [] [] [] (start (P := validating_service) tt)
                  (Forall_nil _) (or_introl eq_refl) I)
        as (_ & sent & Hissued & _ & Hbody).
      exists sent. split; [exact Hissued | exact Hbody].
Defined.



(** X6.  The two functions settle an answer of the network in the same
    way: whenever the network answers the request of one call as it
    answers the request of another (the same response, or the same thrown
    value), the two calls complete alike, be they calls of [submitVote] or
    of [fetchPollResults], with whatever arguments and log. *)
Theorem same_answer_same_completion :
  forall (P : Platform)
         (pollId1 optionId1 token1 pollId2 optionId2 token2 : JSString)
         (call1 call2 : Async P JSValue) (request1 request2 : Request)
         (h1 h2 : Host P),
    In (call1, request1) (client_calls P pollId1 optionId1 token1) ->
    In (call2, request2) (client_calls P pollId2 optionId2 token2) ->
    fst (network P request1 (world h1)) = fst (network P request2 (world h2)) ->
    fst (call1 h1) = fst (call2 h2).
Proof.
  intros P pollId1 optionId1 token1 pollId2 optionId2 token2
    call1 call2 request1 request2 h1 h2 Hin1 Hin2 Hsame.
  destruct (network P request1 (world h1)) as [answer w1] eqn:Hnet1.
  destruct (network P request2 (world h2)) as [answer' w2] eqn:Hnet2.
  simpl in Hsame. subst answer'.
  destruct answer as [response | v].
  - destruct (ok response) eqn:Hok.
    + rewrite (run_ok P _ _ _ call1 request1 Hin1 h1 response w1 Hnet1 Hok),
        (run_ok P _ _ _ call2 request2 Hin2 h2 response w2 Hnet2 Hok).
      reflexivity.
    + destruct (json response) as [errorData | e] eqn:Hjson.
      * destruct (Get errorData (str "detail")) as [detail | e] eqn:Hget.
        -- destruct (ToBoolean detail) eqn:Htruthy.
           ++ rewrite (run_not_ok_detail P _ _ _ call1 request1 Hin1 h1
                         response w1 errorData detail Hnet1 Hok Hjson Hget Htruthy),
                (run_not_ok_detail P _ _ _ call2 request2 Hin2 h2
                   response w2 errorData detail Hnet2 Hok Hjson Hget Htruthy).
              reflexivity.
           ++ rewrite (run_not_ok_fallback P _ _ _ call1 request1 Hin1 h1
                         response w1 Hnet1 Hok),
                (run_not_ok_fallback P _ _ _ call2 request2 Hin2 h2
                   response w2 Hnet2 Hok);
                [reflexivity | |]; intros errorData' detail' E1 E2; congruence.
        -- rewrite (run_not_ok_fallback P _ _ _ call1 request1 Hin1 h1
                      response w1 Hnet1 Hok),
             (run_not_ok_fallback P _ _ _ call2 request2 Hin2 h2
                response w2 Hnet2 Hok);
             [reflexivity | |]; intros errorData' detail' E1 E2; congruence.
      * rewrite (run_not_ok_fallback P _ _ _ call1 request1 Hin1 h1
                   response w1 Hnet1 Hok),
          (run_not_ok_fallback P _ _ _ call2 request2 Hin2 h2
             response w2 Hnet2 Hok);
          [reflexivity | |]; intros errorData' detail' E1 E2; congruence.
  - destruct (instanceof_Error v) eqn:Hv.
    + rewrite (run_fetch_throws_Error P _ _ _ call1 request1 Hin1 h1 v w1 Hnet1 Hv),
        (run_fetch_throws_Error P _ _ _ call2 request2 Hin2 h2 v w2 Hnet2 Hv).
      reflexivity.
    + rewrite (run_fetch_throws_other P _ _ _ call1 request1 Hin1 h1 v w1 Hnet1 Hv),
        (run_fetch_throws_other P _ _ _ call2 request2 Hin2 h2 v w2 Hnet2 Hv).
      reflexivity.
Qed.

Lemma same_answer_same_completion_witness :
  fst (network not_found_service
         (vote_request (str "1") (parseInt (str "2") 10) (str "token")) tt) =
  fst (network not_found_service (results_request (str "9")) tt) /\
  fst (PollApi.submitVote (P := not_found_service) (str "1") (str "2") (str "token")
         (start (P := not_found_service) tt)) =
  fst (FetchPollResultsFile.fetchPollResults (P := not_found_service) (str "9")
         (start (P := not_found_service) tt)).
Proof.
  split; [reflexivity |].
  apply (same_answer_same_completion not_found_service
           (str "1") (str "2") (str "token") (str "9") [] []
           (PollApi.submitVote (str "1") (str "2") (str "token"))
           (FetchPollResultsFile.fetchPollResults (str "9"))
           (vote_request (str "1") (parseInt (str "2") 10) (str "token"))
           (results_request (str "9"))
           (start (P := not_found_service) tt)
           (start (P := not_found_service) tt)).
  - left. reflexivity.
  - right. right. right. left. reflexivity.
  - reflexivity.
Defined.

(** From [2^1024] on rounding overflows. *)
Lemma binary64_round_overflow (p : Z) :
  2 ^ 1024 <= p -> binary64_round p 1 = None.
Proof.
  intros Hbig.
  assert (Hpos : 0 < p) by (pose proof (Z.pow_pos_nonneg 2 1024); lia).
  pose proof (Z.log2_spec p Hpos) as [Hlow _].
  assert (HL : 1024 <= Z.log2 p) by (apply Z.log2_le_pow2; assumption).
  unfold binary64_round, scale2.
  change (Z.log2 1) with 0. rewrite Z.sub_0_r.
  assert (H1 : (0 <=? Z.log2 p) = true) by (apply Z.leb_le; lia).
  rewrite H1.
  assert (H2 : (p <? 1 * 2 ^ Z.log2 p) = false) by (apply Z.ltb_ge; lia).
  rewrite H2.
  rewrite Z.max_l by lia.
  assert (H3 : (0 <=? Z.log2 p - 52) = true) by (apply Z.leb_le; lia).
  rewrite H3.
  assert (Hm : 2 ^ 52 <= p / (1 * 2 ^ (Z.log2 p - 52))).
  { apply Z.div_le_lower_bound.
    - pose proof (Z.pow_pos_nonneg 2 (Z.log2 p - 52)). lia.
    - rewrite Z.mul_1_l, <- Z.pow_add_r by lia.
      replace (Z.log2 p - 52 + 52) with (Z.log2 p) by lia. exact Hlow. }
  match goal with
  | |- context [if ?c then ?m + 1 else ?m] =>
      assert (Hm' : 2 ^ 52 <= (if c then m + 1 else m)) by (destruct c; lia);
      set (m' := if c then m + 1 else m) in *
  end.
  assert (Hlog : 52 <= Z.log2 m').
  { apply Z.log2_le_pow2; [| exact Hm'].
    pose proof (Z.pow_pos_nonneg 2 52). lia. }
  destruct (Z.leb_spec 1024 (Z.log2 m' + (Z.log2 p - 52))); [reflexivity | lia].
Qed.

(** X7.  A run of digits whose value is [2^1024] or more (some 309 digits)
    is not rejected either: [parseInt] gives an infinity, and
    [submitVote] sends its request with the body [{"option_id":null}]. *)
Theorem huge_digits_send_null :
  forall (P : Platform) (pollId token ws sign ds rest : JSString) (h : Host P),
    Forall (fun c => isWhiteSpace c = true) ws ->
    sign = [] \/ sign = str "+" \/ sign = str "-" ->
    ds <> [] ->
    Forall (fun c => isDecimalDigit c = true) ds ->
    match rest with [] => True | c :: _ => isDecimalDigit c = false end ->
    2 ^ 1024 <= radix_value 10 ds ->
    let optionId := ws ++ sign ++ ds ++ rest in
    parseInt optionId 10 = Infinity (string_eqb sign (str "-")) /\
    exists sent : Request,
      issued (snd (PollApi.submitVote pollId optionId token h)) = issued h ++ [sent] /\
      issued (snd (SubmitVoteFile.submitVote pollId optionId token h)) =
        issued h ++ [sent] /\
      body sent =
        Some (str "{" ++ [34%N] ++ str "option_id" ++ [34%N] ++ str ":null}").
Proof.
  intros P pollId token ws sign ds rest h Hws Hsign Hne Hds Hrest Hbig optionId.
  assert (Hpow : 0 < 2 ^ 1024) by (apply Z.pow_pos_nonneg; lia).
  assert (Hinf : parseInt optionId 10 = Infinity (string_eqb sign (str "-"))).
  { unfold optionId.
    rewrite (parseInt_signed_digits ws sign ds rest Hws Hsign Hne Hds Hrest).
    cbv zeta.
    destruct (Z.eqb_spec (radix_value 10 ds) 0) as [E | _]; [lia |].
    unfold NumberOfInteger.
    destruct (string_eqb sign (str "-")).
    - destruct (Z.eqb_spec (- radix_value 10 ds) 0) as [E | _]; [lia |].
      rewrite Z.abs_opp, Z.abs_eq by lia.
      rewrite (binary64_round_overflow _ Hbig).
      destruct (Z.ltb_spec (- radix_value 10 ds) 0); [reflexivity | lia].
    - destruct (Z.eqb_spec (radix_value 10 ds) 0) as [E | _]; [lia |].
      rewrite Z.abs_eq by lia.
      rewrite (binary64_round_overflow _ Hbig).
      destruct (Z.ltb_spec (radix_value 10 ds) 0); [lia | reflexivity]. }
  split; [exact Hinf |].
  exists (vote_request pollId (parseInt optionId 10) token).
  assert (Hone : forall call,
             In (call, vote_request pollId (parseInt optionId 10) token)
               (vote_calls P pollId optionId token) ->
             issued (snd (call h)) =
               issued h ++ [vote_request pollId (parseInt optionId 10) token]).
  { intros call Hin.
    apply (run_issues_one P pollId optionId token), (vote_calls_client _ _ _ _ _ _ Hin). }
  split; [apply Hone; left; reflexivity |].
  split; [apply Hone; right; left; reflexivity |].
  unfold vote_request, body. rewrite vote_body, Hinf. reflexivity.
Qed.

Lemma huge_digits_send_null_witness :
  2 ^ 1024 <= radix_value 10 (str "1" ++ zeros 309) /\
  parseInt (str "-1" ++ zeros 309 ++ str "px") 10 = Infinity true.
Proof.
  assert (Hbig : 2 ^ 1024 <= radix_value 10 (str "1" ++ zeros 309)).
  { apply Z.leb_le. vm_compute. reflexivity. }
  split; [exact Hbig |].
  refine (proj1 (huge_digits_send_null not_found_service (str "1") (str "token")
                   [] (str "-") (str "1" ++ zeros 309) (str "px")
                   (start (P := not_found_service) tt)
                   (Forall_nil _) (or_intror (or_intror eq_refl)) _ _ eq_refl Hbig)).
  - discriminate.
  - apply Forall_forall. intros c Hc.
    destruct Hc as [<- | Hc]; [reflexivity |].
    apply repeat_spec in Hc. subst c. reflexivity.
Defined.

(** X8.  For every non-success response ([response.ok] false) received by
    [submitVote] or [fetchPollResults], the call raises an [Error] whose
    message is the body's [detail] when the body decodes to a value with
    a non-empty string [detail], and is ["HTTP {status}: {statusText}"]
    when the body has no truthy [detail] (it does not decode, is [null],
    has no [detail], or a falsy one).  In particular a [404] with body
    [{"detail": "Poll not found"}] gives ["Poll not found"], and a [500]
    with status text ["Internal Server Error"] and a body that does not
    decode gives ["HTTP 500: Internal Server Error"]. *)
Theorem non_success_error_message :
  forall (P : Platform) (pollId optionId token : JSString)
         (call : Async P JSValue) (request : Request)
         (h : Host P) (response : Response) (w : World P),
    In (call, request) (client_calls P pollId optionId token) ->
    network P request (world h) = (Normal response, w) ->
    ok response = false ->
    (forall (errorData : JSValue) (message : JSString),
        json response = Normal errorData ->
        Get errorData (str "detail") = Normal (JString message) ->
        message <> [] ->
        fst (call h) = Throw (JError (str "Error") message)) /\
    ((forall errorData detail : JSValue,
         json response = Normal errorData ->
         Get errorData (str "detail") = Normal detail ->
         ToBoolean detail = false) ->
     fst (call h) = Throw (JError (str "Error") (fallback_message response))) /\
    (status response = 404 ->
     json response = Normal (JObject [(str "detail", JString (str "Poll not found"))]) ->
     fst (call h) = Throw (JError (str "Error") (str "Poll not found"))) /\
    (status response = 500 ->
     statusText response = str "Internal Server Error" ->
     (exists e, json response = Throw e) ->
     fst (call h) =
       Throw (JError (str "Error") (str "HTTP 500: Internal Server Error"))).
Proof.
  intros P pollId optionId token call request h response w Hin Hnet Hok.
  assert (Hdetail : forall errorData message,
             json response = Normal errorData ->
             Get errorData (str "detail") = Normal (JString message) ->
             message <> [] ->
             fst (call h) = Throw (JError (str "Error") message)).
  { intros errorData message Hjson Hget Hne.
    assert (Htruthy : ToBoolean (JString message) = true)
      by (destruct message; [congruence | reflexivity]).
    rewrite (run_not_ok_detail P pollId optionId token call request Hin h
               response w errorData (JString message) Hnet Hok Hjson Hget Htruthy).
    reflexivity. }
  assert (Hfallback :
            (forall errorData detail : JSValue,
                json response = Normal errorData ->
                Get errorData (str "detail") = Normal detail ->
                ToBoolean detail = false) ->
            fst (call h) = Throw (JError (str "Error") (fallback_message response))).
  { intros Hno.
    rewrite (run_not_ok_fallback P pollId optionId token call request Hin h
               response w Hnet Hok Hno).
    reflexivity. }
  split; [exact Hdetail |].
  split; [exact Hfallback |].
  split.
  - intros _ Hjson.
    apply (Hdetail _ (str "Poll not found") Hjson); [reflexivity | discriminate].
  - intros Hstatus Htext [e Hjson].
    rewrite Hfallback.
    + unfold fallback_message. rewrite Hstatus, Htext. reflexivity.
    + intros errorData detail Hjson'. congruence.
Qed.

Lemma non_success_error_message_witness :
  ok not_found_response = false /\
  fst (PollApi.submitVote (P := not_found_service) (str "1") (str "2") (str "token")
         (start (P := not_found_service) tt)) =
    Throw (JError (str "Error") (str "Poll not found")) /\
  ok server_error_response = false /\
  fst (FetchPollResultsFile.fetchPollResults (P := failing_service) (str "1")
         (start (P := failing_service) tt)) =
    Throw (JError (str "Error") (str "HTTP 500: Internal Server Error")).
Proof.
  split; [reflexivity |]. split; [| split; [reflexivity |]].
  - destruct (non_success_error_message not_found_service
                (str "1") (str "2") (str "token")
                (PollApi.submitVote (str "1") (str "2") (str "token"))
                (vote_request (str "1") (parseInt (str "2") 10) (str "token"))
                (start (P := not_found_service) tt) not_found_response tt
                (or_introl eq_refl) eq_refl eq_refl)
      as (_ & _ & Hfound & _).
    exact (Hfound eq_refl eq_refl).
  - destruct (non_success_error_message failing_service
                (str "1") (str "2") (str "token")
                (FetchPollResultsFile.fetchPollResults (str "1"))
                (results_request (str "1"))
                (start (P := failing_service) tt) server_error_response tt
                (or_intror (or_intror (or_intror (or_introl eq_refl))))
                eq_refl eq_refl)
      as (_ & _ & _ & Hfailed).
    exact (Hfailed eq_refl eq_refl (ex_intro _ _ eq_refl)).
Defined.
